(** * A metadata-indexed file store: the upload server and its snapshot file

    The development embeds the two modules of the server:

    - [data.js]: the two in-memory Maps [pdfFiles] and [imageFiles] and
      their snapshot files, written with [JSON.stringify] and read back
      with [JSON.parse];
    - the Express application: the upload middleware and the route
      handlers that list, fetch, create, edit and delete the records of a
      category.

    A JS [Map] is an association list in insertion order, a record is a
    Rocq record with the six properties the create handler gives it, the
    working directory is a finite map from paths to contents.  What a handler
    reads from outside (the clock, the uuid generator, the outcome of a
    system call) comes in an environment record. *)

From Stdlib Require Import String Ascii List ZArith NArith Bool Lia.
From Stdlib Require Import Decimal DecimalFacts DecimalPos DecimalN DecimalString.
From stdpp Require Import base option list gmap strings.
Local Set Warnings "-register-all".
Import ListNotations.
Local Open Scope string_scope.
Local Open Scope list_scope.

(** ** The JS [Map]

    Entries are kept in insertion order, which is the order [entries()]
    and [values()] enumerate them in.  [set] on a key that is present
    replaces the value where it stands; on a new key it appends.  The key
    comparison is a parameter: the handlers look up strings, a Map built
    from a parsed snapshot compares arbitrary values. *)

Section JSMap.
Context {K V : Type} (same : K -> K -> bool).

Fixpoint Map_get (m : list (K * V)) (k : K) : option V :=
  match m with
  | [] => None
  | (k', v) :: m' => if same k' k then Some v else Map_get m' k
  end.

Definition Map_has (m : list (K * V)) (k : K) : bool :=
  match Map_get m k with Some _ => true | None => false end.

Fixpoint Map_set (m : list (K * V)) (k : K) (v : V) : list (K * V) :=
  match m with
  | [] => [(k, v)]
  | (k', v') :: m' =>
      if same k' k then (k', v) :: m' else (k', v') :: Map_set m' k v
  end.

(** Keys are unique in a Map, so at most one entry goes. *)
Definition Map_delete (m : list (K * V)) (k : K) : list (K * V) :=
  List.filter (fun e => negb (same (fst e) k)) m.

Definition Map_values (m : list (K * V)) : list V := List.map snd m.
Definition Map_keys (m : list (K * V)) : list K := List.map fst m.
Definition Map_entries (m : list (K * V)) : list (K * V) := m.

(** [new Map(entries)] for a list of key/value pairs. *)
Definition Map_of_entries (es : list (K * V)) : list (K * V) :=
  fold_left (fun m e => Map_set m (fst e) (snd e)) es [].
End JSMap.

(** ** Records and requests *)

Record metadata := Metadata {
  id : string;
  filename : string;
  filepath : string;
  size : N;
  uploadDate : string;
  editDate : string
}.

(** [pdfFiles] and [imageFiles]: from id to record. *)
Definition Index := list (string * metadata).

Definition Index_get (m : Index) (k : string) : option metadata := Map_get String.eqb m k.
Definition Index_has (m : Index) (k : string) : bool := Map_has String.eqb m k.
Definition Index_set (m : Index) (k : string) (v : metadata) : Index := Map_set String.eqb m k v.
Definition Index_delete (m : Index) (k : string) : Index := Map_delete String.eqb m k.
Definition Index_values (m : Index) : list metadata := Map_values m.

Inductive category := Pdf | Image.

(** The file part of a multipart request. *)
Record upload := Upload {
  originalname : string;
  mimetype : string;
  buffer : string          (* the bytes of the file *)
}.

(** [req.file], as the upload middleware leaves it. *)
Record req_file := ReqFile {
  file_originalname : string;
  file_path : string;
  file_size : N
}.

(** [req.body] of an edit request whose fields are text, as a form
    sends them and as a JSON body holds them between quotes.  [None] is
    a field that was not sent.  A JSON body may hold a value of another
    kind in a field, which the handlers store as it is; the records
    here are those of requests with text fields, and what the snapshot
    does with other values is stated on the Maps of [data.js], which
    hold any value. *)
Record edit_body := EditBody {
  newFilename : option string;
  newUploadDate : option string;
  newEditDate : option string
}.

(** [if (x)] on a field of the body: sent and not the empty string. *)
Definition truthy (x : option string) : bool :=
  match x with
  | Some s => negb (s =? "")
  | None => false
  end.

(** What a handler takes from outside the program. *)
Record env := Env {
  now : string;           (* new Date().toISOString() *)
  uuid : string;          (* uuidv4() *)
  unlink_fault : bool;    (* the system refuses an unlink of a file that is there *)
  read_fault : bool;      (* the system refuses to read a file that is there *)
  save_fault : bool       (* the snapshot file cannot be written *)
}.

(** ** Responses and the error middleware *)

Inductive payload :=
| SendText (s : string)
| SendList (l : list metadata)
| SendFile (contentType : string) (data : string)
| SendId (success : string) (i : string)
| SendDeleted (message : string)
| SendError (status : N) (message : string)
| SendNothing.

Record response := Response { status : N; body : payload }.

(** [createError(status, message)]. *)
Record http_error := HttpError { err_status : N; err_message : string }.

Definition createError (st : N) (msg : string) : http_error := HttpError st msg.

(** The last middleware: [err.status || 500], [err.message || "Internal
    Server Error"]. *)
Definition error_handler (err : http_error) : response :=
  let st := if (err_status err =? 0)%N then 500%N else err_status err in
  let msg := if err_message err =? "" then "Internal Server Error" else err_message err in
  Response st (SendError st msg).

Definition send (p : payload) : response := Response 200 p.

(** ** JS values and the JSON text of the snapshot file

    The values [JSON.parse] can return, and [undefined].  A string is a
    sequence of 8-bit characters and a finite number is an integer: these
    are the strings and numbers a record holds (a [size] is a byte
    count).  [VInfinity] is the number a text such as [1e999] is parsed
    to, [Infinity] or, with [negative], [-Infinity]. *)

Inductive value :=
| VUndefined
| VNull
| VBool (b : bool)
| VNum (n : Z)
| VStr (s : string)
| VArr (l : list value)
| VObj (props : list (string * value))
| VInfinity (negative : bool).

Definition quote_char : ascii := "034"%char.
Definition backslash : ascii := "\"%char.

Definition hex_digit (n : N) : ascii :=
  if (n <? 10)%N then ascii_of_N (48 + n) else ascii_of_N (87 + n).

Definition hex_val (c : ascii) : option N :=
  let n := N_of_ascii c in
  if ((48 <=? n) && (n <=? 57))%N then Some (n - 48)%N
  else if ((97 <=? n) && (n <=? 102))%N then Some (n - 87)%N
  else if ((65 <=? n) && (n <=? 70))%N then Some (n - 55)%N
  else None.

(** One character of a quoted string, as [JSON.stringify] writes it. *)
Definition escape_char (c : ascii) : string :=
  let n := N_of_ascii c in
  if (c =? quote_char)%char then String backslash (String quote_char "")
  else if (c =? backslash)%char then String backslash (String backslash "")
  else if (n =? 8)%N then String backslash "b"
  else if (n =? 12)%N then String backslash "f"
  else if (n =? 10)%N then String backslash "n"
  else if (n =? 13)%N then String backslash "r"
  else if (n =? 9)%N then String backslash "t"
  else if (n <? 32)%N then
    String backslash (String "u" (String "0" (String "0"
      (String (hex_digit (n / 16)) (String (hex_digit (n mod 16)) "")))))
  else String c "".

Fixpoint escape (s : string) : string :=
  match s with
  | EmptyString => EmptyString
  | String c s' => escape_char c +:+ escape s'
  end.

Definition quote (s : string) : string :=
  String quote_char (escape s +:+ String quote_char "").

Definition write_number (n : Z) : string :=
  match n with
  | Zneg p => String "-" (NilEmpty.string_of_uint (Pos.to_uint p))
  | _ => NilEmpty.string_of_uint (N.to_uint (Z.to_N n))
  end.

(** [JSON.stringify] below the top level: [undefined] is written [null]
    as an array element and is left out as a property value; a number
    that is not finite is written [null]. *)
Fixpoint write_value (v : value) : string :=
  match v with
  | VUndefined => "null"
  | VNull => "null"
  | VBool true => "true"
  | VBool false => "false"
  | VNum n => write_number n
  | VStr s => quote s
  | VArr l => "[" +:+ String.concat "," (List.map write_value l) +:+ "]"
  | VObj props =>
      "{" +:+ String.concat ","
        ((fix write_props (ps : list (string * value)) : list string :=
            match ps with
            | [] => []
            | (k, VUndefined) :: ps' => write_props ps'
            | (k, v) :: ps' => (quote k +:+ ":" +:+ write_value v) :: write_props ps'
            end) props) +:+ "}"
  | VInfinity _ => "null"
  end.

(** [JSON.stringify(v)]: [undefined] itself has no text. *)
Definition JSON_stringify (v : value) : option string :=
  match v with
  | VUndefined => None
  | _ => Some (write_value v)
  end.

Definition is_json_ws (c : ascii) : bool :=
  let n := N_of_ascii c in
  ((n =? 32) || (n =? 9) || (n =? 10) || (n =? 13))%N.

Fixpoint skip_ws (s : string) : string :=
  match s with
  | String c s' => if is_json_ws c then skip_ws s' else s
  | EmptyString => EmptyString
  end.

(** The characters of a string up to its closing quote.  An escape
    [\uXXXX] above [\u00FF] names a character outside the 8-bit range
    and is refused. *)
Fixpoint parse_chars (s : string) : option (string * string) :=
  match s with
  | EmptyString => None
  | String c s' =>
      if (c =? quote_char)%char then Some (EmptyString, s')
      else if (c =? backslash)%char then
        match s' with
        | EmptyString => None
        | String e s'' =>
            let lit (x : ascii) :=
              match parse_chars s'' with
              | Some (t, r) => Some (String x t, r)
              | None => None
              end in
            if (e =? quote_char)%char then lit quote_char
            else if (e =? backslash)%char then lit backslash
            else if (e =? "/")%char then lit "/"%char
            else if (e =? "b")%char then lit "008"%char
            else if (e =? "f")%char then lit "012"%char
            else if (e =? "n")%char then lit "010"%char
            else if (e =? "r")%char then lit "013"%char
            else if (e =? "t")%char then lit "009"%char
            else if (e =? "u")%char then
              match s'' with
              | String h1 (String h2 (String h3 (String h4 s5))) =>
                  match hex_val h1, hex_val h2, hex_val h3, hex_val h4 with
                  | Some a, Some b, Some c', Some d =>
                      let n := (((a * 16 + b) * 16 + c') * 16 + d)%N in
                      if (n <? 256)%N then
                        match parse_chars s5 with
                        | Some (t, r) => Some (String (ascii_of_N n) t, r)
                        | None => None
                        end
                      else None
                  | _, _, _, _ => None
                  end
              | _ => None
              end
            else None
        end
      else if (N_of_ascii c <? 32)%N then None
      else
        match parse_chars s' with
        | Some (t, r) => Some (String c t, r)
        | None => None
        end
  end.

Definition digit_of (c : ascii) : option (Decimal.uint -> Decimal.uint) :=
  let n := N_of_ascii c in
  if (n =? 48)%N then Some Decimal.D0 else if (n =? 49)%N then Some Decimal.D1
  else if (n =? 50)%N then Some Decimal.D2 else if (n =? 51)%N then Some Decimal.D3
  else if (n =? 52)%N then Some Decimal.D4 else if (n =? 53)%N then Some Decimal.D5
  else if (n =? 54)%N then Some Decimal.D6 else if (n =? 55)%N then Some Decimal.D7
  else if (n =? 56)%N then Some Decimal.D8 else if (n =? 57)%N then Some Decimal.D9
  else None.

(** The longest run of digits at the head of [s]. *)
Fixpoint parse_digits (s : string) : Decimal.uint * string :=
  match s with
  | EmptyString => (Decimal.Nil, EmptyString)
  | String c s' =>
      match digit_of c with
      | Some d => let (u, r) := parse_digits s' in (d u, r)
      | None => (Decimal.Nil, s)
      end
  end.

(** What may not follow the digits of an integer: a fraction or an
    exponent would make the number one that is not an integer in plain
    notation, which the model does not hold. *)
Definition starts_fraction (s : string) : bool :=
  match s with
  | String c _ => ((c =? ".") || (c =? "e") || (c =? "E"))%char
  | EmptyString => false
  end.

Definition parse_natural (s : string) : option (N * string) :=
  let (u, r) := parse_digits s in
  match u with
  | Decimal.Nil => None
  | Decimal.D0 (Decimal.Nil) => if starts_fraction r then None else Some (0%N, r)
  | Decimal.D0 _ => None
  | _ => if starts_fraction r then None else Some (N.of_uint u, r)
  end.

Definition parse_number (s : string) : option (value * string) :=
  match s with
  | EmptyString => None
  | String c s' =>
      if (c =? "-")%char then
        match parse_natural s' with
        | Some (n, r) => Some (VNum (- Z.of_N n), r)
        | None => None
        end
      else
        match parse_natural s with
        | Some (n, r) => Some (VNum (Z.of_N n), r)
        | None => None
        end
  end.

(** The text starts with the character [c], blanks aside. *)
Definition next_is (c : ascii) (s : string) : bool :=
  match skip_ws s with
  | String c' _ => (c' =? c)%char
  | EmptyString => false
  end.

Definition after_next (s : string) : string :=
  match skip_ws s with
  | String _ s' => s'
  | EmptyString => EmptyString
  end.

(** [s] starts with [w]: what is left of [s]. *)
Fixpoint strip_prefix (w s : string) : option string :=
  match w, s with
  | EmptyString, _ => Some s
  | String a w', String b s' => if (a =? b)%char then strip_prefix w' s' else None
  | String _ _, EmptyString => None
  end.

(** A property defined twice keeps its place and takes the later value. *)
Definition define_properties (members : list (string * value)) : list (string * value) :=
  Map_of_entries String.eqb members.

Fixpoint parse_value (fuel : nat) (s : string) : option (value * string) :=
  match fuel with
  | O => None
  | S fuel =>
      match skip_ws s with
      | EmptyString => None
      | String c s' =>
          if (c =? "[")%char then
            if next_is "]" s' then Some (VArr [], after_next s')
            else
              match parse_elements fuel s' with
              | Some (l, r) => Some (VArr l, r)
              | None => None
              end
          else if (c =? "{")%char then
            if next_is "}" s' then Some (VObj [], after_next s')
            else
              match parse_members fuel s' with
              | Some (ps, r) => Some (VObj (define_properties ps), r)
              | None => None
              end
          else if (c =? quote_char)%char then
            match parse_chars s' with
            | Some (t, r) => Some (VStr t, r)
            | None => None
            end
          else
            match strip_prefix "null" (String c s') with
            | Some r => Some (VNull, r)
            | None =>
            match strip_prefix "true" (String c s') with
            | Some r => Some (VBool true, r)
            | None =>
            match strip_prefix "false" (String c s') with
            | Some r => Some (VBool false, r)
            | None => parse_number (String c s')
            end end end
      end
  end
with parse_elements (fuel : nat) (s : string) : option (list value * string) :=
  match fuel with
  | O => None
  | S fuel =>
      match parse_value fuel s with
      | None => None
      | Some (v, r) =>
          match skip_ws r with
          | String c r' =>
              if (c =? ",")%char then
                match parse_elements fuel r' with
                | Some (l, r'') => Some (v :: l, r'')
                | None => None
                end
              else if (c =? "]")%char then Some ([v], r')
              else None
          | EmptyString => None
          end
      end
  end
with parse_members (fuel : nat) (s : string) : option (list (string * value) * string) :=
  match fuel with
  | O => None
  | S fuel =>
      match skip_ws s with
      | EmptyString => None
      | String q s' =>
          if (q =? quote_char)%char then
            match parse_chars s' with
            | None => None
            | Some (k, r) =>
                match skip_ws r with
                | String colon r' =>
                    if (colon =? ":")%char then
                      match parse_value fuel r' with
                      | None => None
                      | Some (v, r'') =>
                          match skip_ws r'' with
                          | String c r3 =>
                              if (c =? ",")%char then
                                match parse_members fuel r3 with
                                | Some (ps, r4) => Some ((k, v) :: ps, r4)
                                | None => None
                                end
                              else if (c =? "}")%char then Some ([(k, v)], r3)
                              else None
                          | EmptyString => None
                          end
                      end
                    else None
                | EmptyString => None
                end
            end
          else None
      end
  end.

(** [JSON.parse(text)]: one value, blanks around it, nothing else.
    [None] is the [SyntaxError].  The recursion is bounded by the length
    of the text, which no nesting of values in it exceeds. *)
Definition JSON_parse (text : string) : option value :=
  match parse_value (2 * String.length text + 1) text with
  | Some (v, r) =>
      match skip_ws r with
      | EmptyString => Some v
      | String _ _ => None
      end
  | None => None
  end.

(** ** [new Map(iterable)] on a parsed value *)

Definition jsMap := list (value * value).

(** SameValueZero, the key comparison of a Map.  Objects and arrays are
    compared by reference: two of them that come from different places
    of a parsed text are different keys. *)
Definition same_value_zero (a b : value) : bool :=
  match a, b with
  | VUndefined, VUndefined => true
  | VNull, VNull => true
  | VBool x, VBool y => Bool.eqb x y
  | VNum x, VNum y => (x =? y)%Z
  | VStr x, VStr y => (x =? y)%string
  | VInfinity x, VInfinity y => Bool.eqb x y
  | _, _ => false
  end.

(** [o[name]] for an object's own property. *)
Definition property (props : list (string * value)) (name : string) : value :=
  match Map_get String.eqb props name with
  | Some v => v
  | None => VUndefined
  end.

(** The key and the value the Map constructor reads off one item: its
    properties [0] and [1].  An item that is not an object is a
    [TypeError]. *)
Definition entry_of (item : value) : option (value * value) :=
  match item with
  | VArr l => Some (nth 0 l VUndefined, nth 1 l VUndefined)
  | VObj props => Some (property props "0", property props "1")
  | _ => None
  end.

Fixpoint entries_of (items : list value) : option (list (value * value)) :=
  match items with
  | [] => Some []
  | item :: items' =>
      match entry_of item, entries_of items' with
      | Some e, Some es => Some (e :: es)
      | _, _ => None
      end
  end.

(** [None] is the [TypeError] of a value that cannot be iterated or of an
    item that is not an entry.  A string is iterated by character, and a
    character is not an object. *)
Definition Map_new (iterable : value) : option jsMap :=
  match iterable with
  | VUndefined | VNull => Some []
  | VArr items =>
      match entries_of items with
      | Some es => Some (Map_of_entries same_value_zero es)
      | None => None
      end
  | VStr s => if (s =? "")%string then Some [] else None
  | VBool _ | VNum _ | VObj _ | VInfinity _ => None
  end.

(** [Array.from(m.entries())]: one two-element array per entry. *)
Definition Array_from_entries (m : jsMap) : value :=
  VArr (List.map (fun e => VArr [fst e; snd e]) (Map_entries m)).

(** A record and an Index as the JS values they are. *)
Definition js_of_metadata (r : metadata) : value :=
  VObj [("id", VStr (id r)); ("filename", VStr (filename r));
        ("filepath", VStr (filepath r)); ("size", VNum (Z.of_N (size r)));
        ("uploadDate", VStr (uploadDate r)); ("editDate", VStr (editDate r))].

Definition js_of_index (m : Index) : jsMap :=
  List.map (fun e => (VStr (fst e), js_of_metadata (snd e))) m.

(** ** data.js *)

Definition DATA_FILE_PATH : string := "pdfFilesData.json".
Definition IMAGE_FILE_PATH : string := "imageFilesData.json".

(** [String.prototype.trim]: white space and line terminators go from
    both ends. *)
Definition is_white_space (c : ascii) : bool :=
  let n := N_of_ascii c in
  ((n =? 9) || (n =? 10) || (n =? 11) || (n =? 12) || (n =? 13) || (n =? 32) || (n =? 160))%N.

Fixpoint trimStart (s : string) : string :=
  match s with
  | String c s' => if is_white_space c then trimStart s' else s
  | EmptyString => EmptyString
  end.

Fixpoint trimEnd (s : string) : string :=
  match s with
  | EmptyString => EmptyString
  | String c s' =>
      match trimEnd s' with
      | EmptyString => if is_white_space c then EmptyString else String c EmptyString
      | t => String c t
      end
  end.

Definition trim (s : string) : string := trimEnd (trimStart s).

(** The outcome of a system call. *)
Inductive fs_error := ENOENT | EPERM.

Inductive result (A : Type) :=
| Resolved (a : A)
| Rejected (e : fs_error).
Arguments Resolved {A} a.
Arguments Rejected {A} e.

(** [fs.readFile(path)]: the content, or the error of a file that is not
    there or cannot be read. *)
Definition fs_readFile (fault : bool) (disk : gmap string string) (path : string)
  : result string :=
  match disk !! path with
  | None => Rejected ENOENT
  | Some data => if fault then Rejected EPERM else Resolved data
  end.

(** [fs.writeFile(path, data)]: a write that fails leaves the file as it
    was. *)
Definition fs_writeFile (fault : bool) (disk : gmap string string) (path data : string)
  : result (gmap string string) :=
  if fault then Rejected EPERM else Resolved (<[path := data]> disk).

(** [fs.unlink(path)]. *)
Definition fs_unlink (fault : bool) (disk : gmap string string) (path : string)
  : result (gmap string string) :=
  match disk !! path with
  | None => Rejected ENOENT
  | Some _ => if fault then Rejected EPERM else Resolved (base.delete path disk)
  end.

(** [savedPdfFilesDataToFile] and [savedImageFilesDataToFile], for the
    Map and the path of either: the promise resolves with the file
    written or rejects.  Stringifying an array always gives a text. *)
Definition savedFilesDataToFile (path : string) (files : jsMap) (fault : bool)
    (disk : gmap string string) : result (gmap string string) :=
  match JSON_stringify (Array_from_entries files) with
  | Some data => fs_writeFile fault disk path data
  | None => Rejected EPERM
  end.

Definition savedPdfFilesDataToFile := savedFilesDataToFile DATA_FILE_PATH.
Definition savedImageFilesDataToFile := savedFilesDataToFile IMAGE_FILE_PATH.

(** [loadPdfFilesDataFromFile] and [loadImageFilesDataFromFile]: the new
    value of the Map.  Every error of the [try] block is caught and
    resets the Map; a blank file returns early and leaves it. *)
Definition loadFilesDataFromFile (path : string) (fault : bool)
    (disk : gmap string string) (files : jsMap) : jsMap :=
  match fs_readFile fault disk path with
  | Rejected _ => []
  | Resolved data =>
      if (trim data =? "")%string then files
      else
        match JSON_parse data with
        | None => []
        | Some entries =>
            match Map_new entries with
            | None => []
            | Some m => m
            end
        end
  end.

Definition loadPdfFilesDataFromFile := loadFilesDataFromFile DATA_FILE_PATH.
Definition loadImageFilesDataFromFile := loadFilesDataFromFile IMAGE_FILE_PATH.

(** [updatePdfFilesDataToFile] and [updateImageFilesDataToFile]: the save
    is started and its outcome only logged, so what is left is the disk. *)
Definition updateFilesDataToFile (path : string) (files : jsMap) (fault : bool)
    (disk : gmap string string) : gmap string string :=
  match savedFilesDataToFile path files fault disk with
  | Resolved disk' => disk'
  | Rejected _ => disk
  end.

Definition updatePdfFilesDataToFile := updateFilesDataToFile DATA_FILE_PATH.
Definition updateImageFilesDataToFile := updateFilesDataToFile IMAGE_FILE_PATH.

(** ** The application *)

Record server := Server {
  pdfFiles : Index;
  imageFiles : Index;
  disk : gmap string string
}.

Definition files_of (c : category) (s : server) : Index :=
  match c with Pdf => pdfFiles s | Image => imageFiles s end.

Definition with_files (c : category) (s : server) (m : Index) : server :=
  match c with
  | Pdf => Server m (imageFiles s) (disk s)
  | Image => Server (pdfFiles s) m (disk s)
  end.

Definition with_disk (s : server) (d : gmap string string) : server :=
  Server (pdfFiles s) (imageFiles s) d.

Definition data_file (c : category) : string :=
  match c with Pdf => DATA_FILE_PATH | Image => IMAGE_FILE_PATH end.

(** The call of [updatePdfFilesDataToFile()] or
    [updateImageFilesDataToFile()] that ends a handler. *)
Definition update_data (c : category) (e : env) (s : server) : server :=
  with_disk s
    (updateFilesDataToFile (data_file c) (js_of_index (files_of c s)) (save_fault e) (disk s)).

Definition UPLOADS_PDFS_DIR : string := "uploads/pdfs/".
Definition UPLOADS_IMAGES_DIR : string := "uploads/images/".

(** The two callbacks of [multer.diskStorage]. *)
Definition destination (file : upload) : string :=
  let isPdf := (mimetype file =? "application/pdf")%string in
  if isPdf then UPLOADS_PDFS_DIR else UPLOADS_IMAGES_DIR.

Definition storage_filename (file : upload) : string := originalname file.

(** [upload.single("file")]: the file of the request is stored under its
    destination and its own name before the handler runs, and [req.file]
    describes it.  The directory ends with a separator and the name is a
    plain file name, so joining them is appending. *)
Definition upload_single (d : gmap string string) (part : option upload)
  : gmap string string * option req_file :=
  match part with
  | None => (d, None)
  | Some file =>
      let path := destination file +:+ storage_filename file in
      (<[path := buffer file]> d,
       Some (ReqFile (originalname file) path (N.of_nat (String.length (buffer file)))))
  end.

Definition next (err : http_error) : response := error_handler err.

Definition not_found (c : category) : string :=
  match c with Pdf => "PDF not found" | Image => "Image not found" end.

Definition content_type (c : category) : string :=
  match c with Pdf => "application/pdf" | Image => "image/jpeg" end.

(** [GET /] *)
Definition get_root : response :=
  send (SendText "Welcome to the CME pdf and image host server").

(** [GET /pdf/fetch] and [GET /image/fetch] *)
Definition get_fetch_all (c : category) (s : server) : response :=
  let allMetaData := Index_values (files_of c s) in
  send (SendList allMetaData).

(** [GET /pdf/fetch/:id] and [GET /image/fetch/:id] *)
Definition get_fetch (c : category) (e : env) (rid : string) (s : server) : response :=
  match Index_get (files_of c s) rid with
  | None => next (createError 404 (not_found c))
  | Some md =>
      let filePath := filepath md in
      match fs_readFile (read_fault e) (disk s) filePath with
      | Resolved data => send (SendFile (content_type c) data)
      | Rejected _ => next (createError 500 "Internal Server Error")
      end
  end.

(** [POST /pdf/create] and [POST /image/create] *)
Definition post_create (c : category) (e : env) (part : option upload) (s : server)
  : server * response :=
  let (d, file) := upload_single (disk s) part in
  let s := with_disk s d in
  match file with
  | None => (s, next (createError 400 "No file uploaded"))
  | Some file =>
      let existingFile :=
        List.find (fun f => (filename f =? file_originalname file)%string)
          (Index_values (files_of c s)) in
      match existingFile with
      | Some _ => (s, next (createError 409 "File with the same name already exists"))
      | None =>
          let uploadDate := now e in
          let md :=
            Metadata (uuid e) (file_originalname file) (file_path file) (file_size file)
              uploadDate uploadDate in
          let s := with_files c s (Index_set (files_of c s) (uuid e) md) in
          (update_data c e s, send (SendId "success" (uuid e)))
      end
  end.

Definition unlink_old_message (c : category) : string :=
  match c with
  | Pdf => "Error deleting old PDF file"
  | Image => "Error deleting old image file"
  end.

Definition updated_message (c : category) : string :=
  match c with
  | Pdf => "PDF updated successfully"
  | Image => "Image updated successfully"
  end.

(** The value of a field that is known to be there. *)
Definition field (x : option string) : string :=
  match x with Some s => s | None => EmptyString end.

(** The assignments from [req.body].  The image handler does not read
    [newEditDate]. *)
Definition apply_body (c : category) (b : edit_body) (m : metadata) : metadata :=
  let m :=
    if truthy (newFilename b)
    then Metadata (id m) (field (newFilename b)) (filepath m) (size m) (uploadDate m) (editDate m)
    else m in
  let m :=
    if truthy (newUploadDate b)
    then Metadata (id m) (filename m) (filepath m) (size m) (field (newUploadDate b)) (editDate m)
    else m in
  match c with
  | Pdf =>
      if truthy (newEditDate b)
      then Metadata (id m) (filename m) (filepath m) (size m) (uploadDate m) (field (newEditDate b))
      else m
  | Image => m
  end.

(** [PATCH /pdf/edit/:id] and [PATCH /image/edit/:id].  [md] is the
    [metadata] object the Map holds; it is only assigned to after the last point
    where the handler can leave with an error. *)
Definition patch_edit (c : category) (e : env) (rid : string) (part : option upload)
    (b : edit_body) (s : server) : server * response :=
  let (d, file) := upload_single (disk s) part in
  let s := with_disk s d in
  match Index_get (files_of c s) rid with
  | None => (s, next (createError 404 (not_found c)))
  | Some md =>
      let finish (s : server) (md : metadata) :=
        let md := apply_body c b md in
        let md :=
          Metadata (id md) (filename md) (filepath md) (size md)
            (uploadDate md) (now e) in
        let s := with_files c s (Index_set (files_of c s) rid md) in
        (update_data c e s, send (SendId (updated_message c) rid)) in
      match file with
      | None => finish s md
      | Some file =>
          let existingFile :=
            List.find
              (fun f => (filename f =? file_originalname file)%string
                        && negb (id f =? rid)%string)
              (Index_values (files_of c s)) in
          match existingFile with
          | Some _ => (s, next (createError 409 "File with the same name already exists"))
          | None =>
              match fs_unlink (unlink_fault e) (disk s) (filepath md) with
              | Rejected _ => (s, next (createError 500 (unlink_old_message c)))
              | Resolved d' =>
                  finish (with_disk s d')
                    (Metadata (id md) (file_originalname file) (file_path file)
                       (file_size file) (uploadDate md) (editDate md))
              end
          end
      end
  end.

Definition deleted_message (c : category) : string :=
  match c with
  | Pdf => "PDF file deleted successfully"
  | Image => "Image file deleted successfully"
  end.

Definition unlink_message (c : category) : string :=
  match c with
  | Pdf => "Error deleting PDF file"
  | Image => "Error deleting image file"
  end.

(** [DELETE /pdf/delete/:id] and [DELETE /image/delete/:id] *)
Definition delete_delete (c : category) (e : env) (rid : string) (s : server)
  : server * response :=
  match Index_get (files_of c s) rid with
  | None => (s, next (createError 404 (not_found c)))
  | Some md =>
      let filePath := filepath md in
      match fs_unlink (unlink_fault e) (disk s) filePath with
      | Resolved d' =>
          let s := with_disk s d' in
          let s := with_files c s (Index_delete (files_of c s) rid) in
          (update_data c e s, send (SendDeleted (deleted_message c)))
      | Rejected _ => (s, next (createError 500 (unlink_message c)))
      end
  end.

(** [app.use("*", ...)]: any other route. *)
Definition unmatched : response := next (createError 404 "Resource Not Found").

(** ** Requests and runs *)

(** The requests that reach a route: the middleware in front of the
    routes has parsed the body and, for a create or an edit, multer has
    taken the file part, if there is one.  [Unmatched] is any request
    for which no route is declared. *)
Inductive request :=
| GetRoot
| GetFetchAll (c : category)
| GetFetch (c : category) (rid : string)
| PostCreate (c : category) (part : option upload)
| PatchEdit (c : category) (rid : string) (part : option upload) (b : edit_body)
| DeleteDelete (c : category) (rid : string)
| Unmatched.

Definition handle (e : env) (r : request) (s : server) : server * response :=
  match r with
  | GetRoot => (s, get_root)
  | GetFetchAll c => (s, get_fetch_all c s)
  | GetFetch c rid => (s, get_fetch c e rid s)
  | PostCreate c part => post_create c e part s
  | PatchEdit c rid part b => patch_edit c e rid part b s
  | DeleteDelete c rid => delete_delete c e rid s
  | Unmatched => (s, unmatched)
  end.

(** ** The middleware in front of the routes

    [bodyParser.json()], [express.urlencoded()] and [cors()] run, in
    this order, before any route (l.37-39).  A parser that refuses the
    body (a text that is not JSON, a body over the limit, an encoding
    it does not know) hands its error to the error middleware and no
    route runs; [cors()] ends an [OPTIONS] request itself, with status
    204 and no body; any other request goes on to its route, which is
    what [request] lists. *)
Inductive incoming :=
| BodyRefused (err : http_error)
| Preflight
| Routed (r : request).

Definition preflight : response := Response 204 SendNothing.

Definition app (e : env) (i : incoming) (s : server) : server * response :=
  match i with
  | BodyRefused err => (s, next err)
  | Preflight => (s, preflight)
  | Routed r => handle e r s
  end.

(** The requests are served one after the other. *)
Fixpoint run (events : list (env * request)) (s : server) : server * list response :=
  match events with
  | [] => (s, [])
  | (e, r) :: events' =>
      let (s1, resp) := handle e r s in
      let (s2, resps) := run events' s1 in
      (s2, resp :: resps)
  end.

Definition succeeded (resp : response) : bool := (status resp =? 200)%N.

(** The server before its first request, on a disk with no snapshot
    loaded yet. *)
Definition initial (d : gmap string string) : server := Server [] [] d.

(** ** Notions the properties are stated with *)

(** Both Indexes are what they were. *)
Definition same_indexes (s s' : server) : Prop :=
  pdfFiles s' = pdfFiles s /\ imageFiles s' = imageFiles s.

(** How many records of an Index carry a file name. *)
Definition named (f : string) (m : Index) : nat :=
  length (List.filter (fun r => (filename r =? f)%string) (Index_values m)).

(** ** Sample requests *)

Module Sample.
Definition at_time (t u : string) : env := Env t u false false false.
Definition jan1 : env := at_time "2024-01-01T00:00:00.000Z" "id-1".
Definition jan2 : env := at_time "2024-01-02T00:00:00.000Z" "id-2".
Definition jan3 : env := at_time "2024-01-03T00:00:00.000Z" "id-3".
Definition pdf (name : string) : upload := Upload name "application/pdf" "%PDF-1.4 sample".
Definition jpeg (name : string) : upload := Upload name "image/jpeg" "JFIF sample".
Definition no_fields : edit_body := EditBody None None None.
Definition rename_to (name : string) : edit_body := EditBody (Some name) None None.

(** The server after one successful create of [a.pdf]. *)
Definition one_pdf : server :=
  fst (post_create Pdf jan1 (Some (pdf "a.pdf")) (initial ∅)).

(** A pdf record whose blob is gone: the same file was also created
    through the image route, which stored it at the same path (the
    directory follows the mimetype, not the route), and was deleted
    there. *)
Definition orphaned : server :=
  fst (run [(jan1, PostCreate Pdf (Some (pdf "a.pdf")));
            (jan2, PostCreate Image (Some (pdf "a.pdf")));
            (jan3, DeleteDelete Image "id-2")] (initial ∅)).

(** The system refuses to unlink. *)
Definition jan2_unlink_refused : env :=
  Env "2024-01-02T00:00:00.000Z" "id-2" true false false.

(** The Map [pdfFiles] after [a.pdf] was created and then edited by a
    request whose JSON body is [{newFilename: 1e999}]: the body parser
    gives [Infinity] for the number, which is truthy, and the edit
    handler assigns it to [filename]. *)
Definition infinite_name : jsMap :=
  [(VStr "id-1",
    VObj [("id", VStr "id-1"); ("filename", VInfinity false);
          ("filepath", VStr "uploads/pdfs/a.pdf"); ("size", VNum 15);
          ("uploadDate", VStr "2024-01-01T00:00:00.000Z");
          ("editDate", VStr "2024-01-02T00:00:00.000Z")])].
End Sample.

(** ** The statements that are refuted *)

(** A delete of a record whose blob is no longer on the disk succeeds
    and removes the record. *)
Definition delete_tolerates_absent_blob : Prop :=
  forall (c : category) (e : env) (rid : string) (s : server) (md : metadata),
    Index_get (files_of c s) rid = Some md ->
    disk s !! filepath md = None ->
    status (snd (delete_delete c e rid s)) = 200%N
    /\ Index_has (files_of c (fst (delete_delete c e rid s))) rid = false.

(** An edit with a file whose unlink of the old blob is refused by the
    system fails with 500, leaves the record, and has not written the
    new blob. *)
Definition edit_aborts_before_write : Prop :=
  forall (c : category) (e : env) (rid : string) (f : upload) (b : edit_body)
         (s : server) (md : metadata),
    Index_get (files_of c s) rid = Some md ->
    is_Some (disk s !! filepath md) ->
    unlink_fault e = true ->
    List.find (fun r => (filename r =? originalname f)%string && negb (id r =? rid)%string)
      (Index_values (files_of c s)) = None ->
    let r := patch_edit c e rid (Some f) b s in
    status (snd r) = 500%N
    /\ Index_get (files_of c (fst r)) rid = Some md
    /\ disk (fst r) !! (destination f +:+ originalname f)
       = disk s !! (destination f +:+ originalname f).

(** ** Dates

    A date is the text [toISOString] gives, and two of them compare as
    JS compares strings: character by character. *)

Definition str_le (a b : string) : Prop := String.leb a b = true.
Definition str_lt (a b : string) : Prop := String.ltb a b = true.

(** Every reading of the clock is at or after the one before; [t] is the
    reading before the first. *)
Fixpoint clock_from (t : string) (events : list (env * request)) : Prop :=
  match events with
  | [] => True
  | (e, _) :: events' => str_le t (now e) /\ clock_from (now e) events'
  end.

(** The empty text precedes every reading. *)
Definition clock_nondecreasing (events : list (env * request)) : Prop :=
  clock_from EmptyString events.

Fixpoint last_reading (t : string) (events : list (env * request)) : string :=
  match events with
  | [] => t
  | (e, _) :: events' => last_reading (now e) events'
  end.

(** No edit of the run carries a [newUploadDate]. *)
Definition keeps_upload_date (r : request) : Prop :=
  match r with
  | PatchEdit _ _ _ b => truthy (newUploadDate b) = false
  | _ => True
  end.

Definition keeps_upload_dates (events : list (env * request)) : Prop :=
  Forall (fun ev => keeps_upload_date (snd ev)) events.

(** A record edited no earlier than uploaded and no later than [t]. *)
Definition record_dated (t : string) (md : metadata) : Prop :=
  str_le (uploadDate md) (editDate md) /\ str_le (editDate md) t.

Definition dated_by (t : string) (s : server) : Prop :=
  forall c, Forall (record_dated t) (Index_values (files_of c s)).

(** On every run on which the clock only moves forward, every record is
    edited no earlier than uploaded. *)
Definition dates_ordered_on_every_run : Prop :=
  forall (events : list (env * request)) (d : gmap string string)
         (c : category) (md : metadata),
    clock_nondecreasing events ->
    In md (Index_values (files_of c (fst (run events (initial d))))) ->
    str_le (uploadDate md) (editDate md).

(** The record a successful edit leaves, from the record [md] it found:
    the fields of the uploaded file if there is one, then the fields of
    the body, then the date of the edit. *)
Definition edited (c : category) (e : env) (file : option req_file) (b : edit_body)
    (md : metadata) : metadata :=
  let md0 :=
    match file with
    | Some f => Metadata (id md) (file_originalname f) (file_path f) (file_size f)
                  (uploadDate md) (editDate md)
    | None => md
    end in
  let m := apply_body c b md0 in
  Metadata (id m) (filename m) (filepath m) (size m) (uploadDate m) (now e).

(** ** Values that have a JSON text

    A value [JSON.stringify] writes in full: no [undefined] and no number
    that is not finite in it, and no property name twice in an object. *)

Inductive json_wf : value -> Prop :=
| wf_null : json_wf VNull
| wf_bool b : json_wf (VBool b)
| wf_num n : json_wf (VNum n)
| wf_str s : json_wf (VStr s)
| wf_arr l : List.Forall json_wf l -> json_wf (VArr l)
| wf_obj props :
    List.NoDup (List.map fst props) ->
    List.Forall (fun p => json_wf (snd p)) props ->
    json_wf (VObj props).

(** The depth of calls [parse_value] makes on the text of a value. *)
Fixpoint weight (v : value) : nat :=
  match v with
  | VArr l =>
      S ((fix elements (l : list value) : nat :=
            match l with
            | [] => 0
            | x :: l' => S (weight x + elements l')
            end) l)
  | VObj props =>
      S ((fix members (ps : list (string * value)) : nat :=
            match ps with
            | [] => 0
            | (_, x) :: ps' => S (weight x + members ps')
            end) props)
  | _ => 1
  end.

Definition weight_elements (l : list value) : nat :=
  list_sum (List.map (fun x => S (weight x)) l).

Definition weight_members (ps : list (string * value)) : nat :=
  list_sum (List.map (fun p => S (weight (snd p))) ps).

(** What may follow a value in a text: the end, or a character that
    does not continue a number. *)
Definition delimited (rest : string) : Prop :=
  match rest with
  | EmptyString => True
  | String c _ => digit_of c = None /\ starts_fraction rest = false
  end.

Definition is_digit (c : ascii) : bool :=
  match digit_of c with Some _ => true | None => false end.

(** The characters a JSON text of a value can start with. *)
Definition value_start (c : ascii) : bool :=
  is_digit c
  || ((c =? "-") || (c =? quote_char) || (c =? "[") || (c =? "{")
      || (c =? "n") || (c =? "t") || (c =? "f"))%char.

(** The text of one property of an object. *)
Definition member_text (p : string * value) : string :=
  quote (fst p) +:+ ":" +:+ write_value (snd p).

(** The texts of the properties of an object that have a text. *)
Fixpoint write_props (ps : list (string * value)) : list string :=
  match ps with
  | [] => []
  | (k, VUndefined) :: ps' => write_props ps'
  | (k, v) :: ps' => (quote k +:+ ":" +:+ write_value v) :: write_props ps'
  end.

(** The text of a value is read back as the value, whatever follows it. *)
Definition reads_back (v : value) : Prop :=
  forall fuel rest, weight v <= fuel -> delimited rest ->
    parse_value fuel (write_value v +:+ rest) = Some (v, rest).

(** No two entries of a list have the same key. *)
Definition distinct_keys {K V : Type} (same : K -> K -> bool) (es : list (K * V)) : Prop :=
  ForallOrdPairs (fun a b => same (fst a) (fst b) = false) es.

(** Induction on a value, with the property known for the items of an
    array and the property values of an object. *)

Section value_induction.
Variable P : value -> Prop.
Hypothesis Hundefined : P VUndefined.
Hypothesis Hnull : P VNull.
Hypothesis Hbool : forall b, P (VBool b).
Hypothesis Hnum : forall n, P (VNum n).
Hypothesis Hstr : forall s, P (VStr s).
Hypothesis Harr : forall l, List.Forall P l -> P (VArr l).
Hypothesis Hobj : forall props, List.Forall (fun p => P (snd p)) props -> P (VObj props).
Hypothesis Hinfinity : forall negative, P (VInfinity negative).

Fixpoint value_nested_ind (v : value) : P v :=
  match v with
  | VUndefined => Hundefined
  | VNull => Hnull
  | VBool b => Hbool b
  | VNum n => Hnum n
  | VStr s => Hstr s
  | VArr l =>
      Harr l ((fix go (l : list value) : List.Forall P l :=
                 match l with
                 | [] => @List.Forall_nil _ P
                 | x :: l' => @List.Forall_cons _ P x l' (value_nested_ind x) (go l')
                 end) l)
  | VObj props =>
      Hobj props
        ((fix go (ps : list (string * value)) : List.Forall (fun p => P (snd p)) ps :=
            match ps with
            | [] => @List.Forall_nil _ (fun p => P (snd p))
            | p :: ps' =>
                @List.Forall_cons _ (fun p => P (snd p)) p ps' (value_nested_ind (snd p)) (go ps')
            end) props)
  | VInfinity negative => Hinfinity negative
  end.
End value_induction.

(** ** Invariants of an Index *)

(** Every record is stored under its own id. *)
Definition keyed_by_id (m : Index) : Prop :=
  List.Forall (fun e => id (snd e) = fst e) m.

Definition well_keyed (m : Index) : Prop :=
  List.NoDup (Map_keys m) /\ keyed_by_id m.

(** No two records carry the same file name. *)
Definition unique_filenames (m : Index) : Prop :=
  List.NoDup (List.map filename (Index_values m)).

(** The request is not an edit that carries a [newFilename]. *)
Definition keeps_filename (r : request) : Prop :=
  match r with
  | PatchEdit _ _ _ b => truthy (newFilename b) = false
  | _ => True
  end.

(** The category whose Index a request may change. *)
Definition target (r : request) : option category :=
  match r with
  | PostCreate c _ | PatchEdit c _ _ _ | DeleteDelete c _ => Some c
  | _ => None
  end.

(** The key a request may set or remove. *)
Definition target_key (e : env) (r : request) : option string :=
  match r with
  | PostCreate _ _ => Some (uuid e)
  | PatchEdit _ rid _ _ | DeleteDelete _ rid => Some rid
  | _ => None
  end.

(** The path the upload middleware stores a file at. *)
Definition upload_path (f : upload) : string := destination f +:+ originalname f.

(** The same environment, with the save refused or not. *)
Definition with_save_fault (e : env) (fault : bool) : env :=
  Env (now e) (uuid e) (unlink_fault e) (read_fault e) fault.

(** Every id and every record of a Map has a JSON text. *)
Definition writable (files : jsMap) : Prop :=
  List.Forall (fun e => json_wf (fst e) /\ json_wf (snd e)) files.

(** Whatever a Map holds, the Map that is saved and loaded back is the
    Map that was saved. *)
Definition every_snapshot_round_trips : Prop :=
  forall (path : string) (files : jsMap) (disk : gmap string string) (old : jsMap),
    distinct_keys same_value_zero files ->
    exists disk',
      savedFilesDataToFile path files false disk = Resolved disk'
      /\ loadFilesDataFromFile path false disk' old = files.

(** * Properties *)

Local Arguments String.append !_ _ / : simpl nomatch.

(** ** The Map operations *)

Section JSMapFacts.
Context {K V : Type} (same : K -> K -> bool).
Hypothesis same_refl : forall k, same k k = true.

Lemma Map_get_set_eq (m : list (K * V)) k v :
  Map_get same (Map_set same m k v) k = Some v.
Proof.
  induction m as [|[k' v'] m IH]; simpl.
  - now rewrite same_refl.
  - destruct (same k' k) eqn:E; simpl; rewrite E; auto.
Qed.

Lemma Map_get_delete_eq (m : list (K * V)) k :
  Map_get same (Map_delete same m k) k = None.
Proof.
  unfold Map_delete.
  induction m as [|[k' v'] m IH]; simpl; auto.
  destruct (same k' k) eqn:E; simpl; auto.
  now rewrite E.
Qed.

Lemma Map_has_get (m : list (K * V)) k :
  Map_has same m k = false <-> Map_get same m k = None.
Proof. unfold Map_has. destruct (Map_get same m k); split; congruence. Qed.
End JSMapFacts.

Lemma Index_get_set_eq m k v : Index_get (Index_set m k v) k = Some v.
Proof. apply Map_get_set_eq, String.eqb_refl. Qed.

Lemma Index_get_delete_eq m k : Index_get (Index_delete m k) k = None.
Proof. apply Map_get_delete_eq. Qed.

Lemma Index_has_false m k : Index_has m k = false <-> Index_get m k = None.
Proof. apply Map_has_get. Qed.

(** ** What a handler leaves of the state *)

Lemma files_of_with_files c s m : files_of c (with_files c s m) = m.
Proof. now destruct c. Qed.

Lemma files_of_with_disk c s d : files_of c (with_disk s d) = files_of c s.
Proof. now destruct c. Qed.

Lemma files_of_update_data c c' e s : files_of c (update_data c' e s) = files_of c s.
Proof. now destruct c. Qed.

Lemma same_indexes_with_disk s d : same_indexes s (with_disk s d).
Proof. now split. Qed.

Lemma find_none_named f (m : Index) :
  List.find (fun r => (filename r =? f)%string) (Index_values m) = None ->
  named f m = 0.
Proof.
  unfold named, Index_values, Map_values.
  induction m as [|[k r] m IH]; simpl; auto.
  destruct (filename r =? f)%string; [discriminate | auto].
Qed.

Lemma named_set f k r (m : Index) :
  named f m = 0 -> filename r = f -> named f (Index_set m k r) = 1.
Proof.
  unfold named, Index_values, Map_values, Index_set.
  intros H0 Hf. induction m as [|[k' r'] m IH]; simpl in *.
  - now rewrite Hf, String.eqb_refl.
  - destruct (filename r' =? f)%string eqn:E; [discriminate|].
    destruct (k' =? k)%string; simpl.
    + rewrite Hf, String.eqb_refl. simpl. f_equal. exact H0.
    + rewrite E. auto.
Qed.

Lemma named_find f (m : Index) :
  named f m <> 0 ->
  List.find (fun r => (filename r =? f)%string) (Index_values m) <> None.
Proof.
  intros H Hn. apply H. now apply find_none_named.
Qed.

(** ** Create, edit and delete *)

(** The three ways a create request ends. *)
Lemma post_create_cases c e part s :
  (part = None /\ post_create c e part s = (s, next (createError 400 "No file uploaded")))
  \/ (exists f d, part = Some f /\ d = <[destination f +:+ originalname f := buffer f]> (disk s)
        /\ List.find (fun r => (filename r =? originalname f)%string)
             (Index_values (files_of c s)) <> None
        /\ post_create c e part s =
             (with_disk s d, next (createError 409 "File with the same name already exists")))
  \/ (exists f d md, part = Some f /\ d = <[destination f +:+ originalname f := buffer f]> (disk s)
        /\ md = Metadata (uuid e) (originalname f) (destination f +:+ originalname f)
                  (N.of_nat (String.length (buffer f))) (now e) (now e)
        /\ List.find (fun r => (filename r =? originalname f)%string)
             (Index_values (files_of c s)) = None
        /\ post_create c e part s =
             (update_data c e (with_files c (with_disk s d) (Index_set (files_of c s) (uuid e) md)),
              send (SendId "success" (uuid e)))).
Proof.
  destruct part as [f|].
  - right. unfold post_create, upload_single, storage_filename. simpl.
    rewrite files_of_with_disk.
    destruct (List.find _ (Index_values (files_of c s))) eqn:E.
    + left. exists f, (<[destination f +:+ originalname f := buffer f]> (disk s)).
      repeat split; congruence.
    + right. eexists f, _, _. repeat split; try reflexivity. exact E.
  - left. split; auto. unfold post_create; simpl. now destruct s.
Qed.

(** C4: a create or an edit that is refused for a domain reason, a file
    name that is taken (409) or an id that is unknown (404), leaves both
    Indexes as they were.  In particular, when a create of a file name
    has succeeded, a second create of the same name is refused with 409
    and the Index holds exactly one record of that name. *)
Theorem domain_failure_leaves_index
    (c : category) (e e2 : env) (part : option upload) (rid : string)
    (b : edit_body) (f f2 : upload) (s : server) :
  (status (snd (post_create c e part s)) = 409%N ->
   same_indexes s (fst (post_create c e part s)))
  /\ (status (snd (patch_edit c e rid part b s)) = 404%N
      \/ status (snd (patch_edit c e rid part b s)) = 409%N ->
      same_indexes s (fst (patch_edit c e rid part b s)))
  /\ (status (snd (post_create c e (Some f) s)) = 200%N ->
      originalname f2 = originalname f ->
      let s1 := fst (post_create c e (Some f) s) in
      let s2 := fst (post_create c e2 (Some f2) s1) in
      status (snd (post_create c e2 (Some f2) s1)) = 409%N
      /\ same_indexes s1 s2
      /\ named (originalname f) (files_of c s2) = 1).
Proof.
  split; [|split].
  - destruct (post_create_cases c e part s)
      as [[_ ->]|[(f0 & d & _ & _ & _ & ->)|(f0 & d & md & _ & _ & _ & _ & ->)]];
      simpl; try discriminate.
    intros _. apply same_indexes_with_disk.
  - unfold patch_edit.
    destruct (upload_single (disk s) part) as [d file].
    rewrite files_of_with_disk.
    destruct (Index_get (files_of c s) rid) as [md|]; simpl.
    + destruct file as [file|]; simpl.
      * destruct (List.find _ _); simpl.
        -- intros _. apply same_indexes_with_disk.
        -- destruct (fs_unlink _ _ _); simpl; intros [H|H]; discriminate.
      * intros [H|H]; discriminate.
    + intros _. apply same_indexes_with_disk.
  - intros H200 Hname s1 s2.
    destruct (post_create_cases c e (Some f) s)
      as [[? _]|[(f0 & d & _ & _ & _ & E)|(f0 & d & md & Hf & Hd & Hmd & Hfind & E)]];
      try discriminate.
    { rewrite E in H200. discriminate. }
    injection Hf as <-.
    assert (Hs1 : files_of c s1 = Index_set (files_of c s) (uuid e) md).
    { unfold s1. rewrite E. simpl.
      now rewrite files_of_update_data, files_of_with_files. }
    assert (Hnamed : named (originalname f) (files_of c s1) = 1).
    { rewrite Hs1. apply named_set; [now apply find_none_named | now subst md]. }
    destruct (post_create_cases c e2 (Some f2) s1)
      as [[? _]|[(f0 & d2 & Hf2 & _ & _ & E2)|(f0 & d2 & md2 & Hf2 & _ & _ & Hfind2 & _)]];
      try discriminate.
    + unfold s2. rewrite E2. simpl. repeat split.
      rewrite files_of_with_disk. exact Hnamed.
    + injection Hf2 as <-. exfalso. rewrite Hname in Hfind2.
      apply (named_find (originalname f) (files_of c s1)); [lia | exact Hfind2].
Qed.

Lemma domain_failure_leaves_index_witness :
  let s := Sample.one_pdf in
  let s1 := fst (post_create Pdf Sample.jan2 (Some (Sample.pdf "b.pdf")) s) in
  let s2 := fst (post_create Pdf Sample.jan3 (Some (Sample.pdf "b.pdf")) s1) in
  same_indexes s (fst (post_create Pdf Sample.jan2 (Some (Sample.pdf "a.pdf")) s))
  /\ same_indexes s
       (fst (patch_edit Pdf Sample.jan2 "id-0" (Some (Sample.pdf "a.pdf")) Sample.no_fields s))
  /\ status (snd (post_create Pdf Sample.jan3 (Some (Sample.pdf "b.pdf")) s1)) = 409%N
  /\ same_indexes s1 s2
  /\ named "b.pdf" (files_of Pdf s2) = 1.
Proof.
  intros s s1 s2.
  destruct (domain_failure_leaves_index Pdf Sample.jan2 Sample.jan3
              (Some (Sample.pdf "a.pdf")) "id-0" Sample.no_fields
              (Sample.pdf "b.pdf") (Sample.pdf "b.pdf") s) as (H1 & H2 & H3).
  split; [apply H1; vm_compute; reflexivity|].
  split; [apply H2; left; vm_compute; reflexivity|].
  apply H3; vm_compute; reflexivity.
Defined.

(** C9: fetch and delete answer 404 exactly when the id is not in the
    Index; after a successful delete the id is not in the Index, so a
    fetch and a second delete of it both answer 404. *)
Theorem not_found_iff_absent (c : category) (e e' : env) (rid : string) (s : server) :
  (status (get_fetch c e rid s) = 404%N <-> Index_has (files_of c s) rid = false)
  /\ (status (snd (delete_delete c e rid s)) = 404%N <-> Index_has (files_of c s) rid = false)
  /\ (status (snd (delete_delete c e rid s)) = 200%N ->
      let s' := fst (delete_delete c e rid s) in
      Index_has (files_of c s') rid = false
      /\ status (get_fetch c e' rid s') = 404%N
      /\ status (snd (delete_delete c e' rid s')) = 404%N).
Proof.
  assert (Hfetch : forall e0 s0, status (get_fetch c e0 rid s0) = 404%N
                                 <-> Index_has (files_of c s0) rid = false).
  { intros e0 s0. rewrite Index_has_false. unfold get_fetch.
    destruct (Index_get (files_of c s0) rid) as [md|]; simpl.
    - destruct (fs_readFile _ _ _); simpl; split; discriminate.
    - split; auto. }
  assert (Hdelete : forall e0 s0, status (snd (delete_delete c e0 rid s0)) = 404%N
                                  <-> Index_has (files_of c s0) rid = false).
  { intros e0 s0. rewrite Index_has_false. unfold delete_delete.
    destruct (Index_get (files_of c s0) rid) as [md|]; simpl.
    - destruct (fs_unlink _ _ _); simpl; split; discriminate.
    - split; auto. }
  split; [apply Hfetch | split; [apply Hdelete|]].
  intros H200 s'.
  assert (Habsent : Index_has (files_of c s') rid = false).
  { unfold s', delete_delete in *.
    destruct (Index_get (files_of c s) rid) as [md|]; simpl in *; [|discriminate].
    destruct (fs_unlink _ _ _); simpl in *; [|discriminate].
    rewrite files_of_update_data, files_of_with_files, files_of_with_disk.
    apply Index_has_false, Index_get_delete_eq. }
  split; [exact Habsent|]. split; [now apply Hfetch | now apply Hdelete].
Qed.

Lemma not_found_iff_absent_witness :
  let s' := fst (delete_delete Pdf Sample.jan2 "id-1" Sample.one_pdf) in
  Index_has (files_of Pdf s') "id-1" = false
  /\ status (get_fetch Pdf Sample.jan3 "id-1" s') = 404%N
  /\ status (snd (delete_delete Pdf Sample.jan3 "id-1" s')) = 404%N.
Proof.
  intros s'.
  apply (not_found_iff_absent Pdf Sample.jan2 Sample.jan3 "id-1" Sample.one_pdf).
  vm_compute; reflexivity.
Defined.

(** C5: after a successful edit the record's [editDate] is the server's
    time of the edit, whatever [newEditDate] the body carried and whether
    or not a file was uploaded. *)
Theorem edit_sets_editDate (c : category) (e : env) (rid : string)
    (part : option upload) (b : edit_body) (s : server) :
  status (snd (patch_edit c e rid part b s)) = 200%N ->
  exists md, Index_get (files_of c (fst (patch_edit c e rid part b s))) rid = Some md
             /\ editDate md = now e.
Proof.
  unfold patch_edit.
  destruct (upload_single (disk s) part) as [d file].
  rewrite files_of_with_disk.
  destruct (Index_get (files_of c s) rid) as [md|]; simpl; [|discriminate].
  destruct file as [file|]; simpl.
  - destruct (List.find _ _); simpl; [discriminate|].
    destruct (fs_unlink _ _ _); simpl; [|discriminate].
    intros _. rewrite files_of_update_data, files_of_with_files.
    eexists. split; [apply Index_get_set_eq | reflexivity].
  - intros _. rewrite files_of_update_data, files_of_with_files.
    eexists. split; [apply Index_get_set_eq | reflexivity].
Qed.

Lemma edit_sets_editDate_witness :
  exists md,
    Index_get (files_of Pdf (fst (patch_edit Pdf Sample.jan2 "id-1" None
                                    (EditBody None None (Some "1999-12-31T23:59:59.000Z"))
                                    Sample.one_pdf))) "id-1" = Some md
    /\ editDate md = "2024-01-02T00:00:00.000Z".
Proof.
  apply (edit_sets_editDate Pdf Sample.jan2 "id-1" None
           (EditBody None None (Some "1999-12-31T23:59:59.000Z")) Sample.one_pdf).
  vm_compute; reflexivity.
Defined.

(** ** What the disk keeps *)

Lemma update_data_disk c e s p :
  p <> data_file c -> disk (update_data c e s) !! p = disk s !! p.
Proof.
  intros Hp. unfold update_data, updateFilesDataToFile, savedFilesDataToFile; simpl.
  unfold fs_writeFile. destruct (save_fault e); simpl; auto.
  now rewrite lookup_insert_ne.
Qed.

Lemma append_inj_r (a b c : string) : a +:+ b = a +:+ c -> b = c.
Proof.
  induction a as [|x a IH]; simpl; auto.
  intros H. injection H as H. auto.
Qed.

Lemma apply_body_frame c b m :
  id (apply_body c b m) = id m
  /\ filepath (apply_body c b m) = filepath m
  /\ size (apply_body c b m) = size m
  /\ filename (apply_body c b m)
     = if truthy (newFilename b) then field (newFilename b) else filename m.
Proof.
  unfold apply_body.
  destruct c, (truthy (newFilename b)), (truthy (newUploadDate b)),
    (truthy (newEditDate b)); simpl; auto.
Qed.

(** An edit without a file, of an id that is there. *)
Lemma patch_edit_no_file c e rid b s md :
  Index_get (files_of c s) rid = Some md ->
  patch_edit c e rid None b s =
    (update_data c e
       (with_files c (with_disk s (disk s))
          (Index_set (files_of c s) rid
             (Metadata (id (apply_body c b md)) (filename (apply_body c b md))
                (filepath (apply_body c b md)) (size (apply_body c b md))
                (uploadDate (apply_body c b md)) (now e)))),
     send (SendId (updated_message c) rid)).
Proof.
  intros Hget. unfold patch_edit. cbn [upload_single].
  rewrite files_of_with_disk, Hget. reflexivity.
Qed.

(** C10: a successful edit that brings a new file name and no file
    changes, besides the dates, the [filename] of the record only: [id],
    [filepath] and [size] stay, and so does every file of the disk but
    the snapshot.  When the blob was stored under the record's file name,
    after a rename to another name the record's [filename] is no longer
    the name the blob has on the disk. *)
Theorem rename_keeps_blob (c : category) (e : env) (rid : string) (b : edit_body)
    (s : server) (md : metadata) (dir : string) :
  Index_get (files_of c s) rid = Some md ->
  truthy (newFilename b) = true ->
  let s' := fst (patch_edit c e rid None b s) in
  status (snd (patch_edit c e rid None b s)) = 200%N
  /\ exists md',
       Index_get (files_of c s') rid = Some md'
       /\ id md' = id md
       /\ filename md' = field (newFilename b)
       /\ filepath md' = filepath md
       /\ size md' = size md
       /\ (forall p, p <> data_file c -> disk s' !! p = disk s !! p)
       /\ (filepath md = dir +:+ filename md ->
           field (newFilename b) <> filename md ->
           filepath md' <> dir +:+ filename md').
Proof.
  intros Hget Hname s'. unfold s'.
  rewrite (patch_edit_no_file c e rid b s md Hget). cbn [fst snd].
  split; [reflexivity|].
  rewrite files_of_update_data, files_of_with_files.
  destruct (apply_body_frame c b md) as (Hi & Hp & Hs & Hf).
  rewrite Hname in Hf.
  eexists. split; [apply Index_get_set_eq|]. cbn [id filename filepath size].
  rewrite Hi, Hp, Hs, Hf.
  split; [reflexivity|]. split; [reflexivity|]. split; [reflexivity|].
  split; [reflexivity|]. split.
  - intros p Hne. rewrite update_data_disk by exact Hne.
    now destruct c.
  - intros Hpath Hdiff Heq. rewrite Hpath in Heq.
    apply append_inj_r in Heq. congruence.
Qed.

Lemma rename_keeps_blob_witness :
  let s' := fst (patch_edit Pdf Sample.jan2 "id-1" None (Sample.rename_to "b.pdf")
                   Sample.one_pdf) in
  status (snd (patch_edit Pdf Sample.jan2 "id-1" None (Sample.rename_to "b.pdf")
                 Sample.one_pdf)) = 200%N
  /\ exists md',
       Index_get (files_of Pdf s') "id-1" = Some md'
       /\ id md' = "id-1"
       /\ filename md' = "b.pdf"
       /\ filepath md' = "uploads/pdfs/a.pdf"
       /\ size md' = 15%N
       /\ (forall p, p <> data_file Pdf -> disk s' !! p = disk Sample.one_pdf !! p)
       /\ ("uploads/pdfs/a.pdf" = "uploads/pdfs/" +:+ "a.pdf" ->
           "b.pdf" <> "a.pdf" ->
           filepath md' <> "uploads/pdfs/" +:+ filename md').
Proof.
  apply (rename_keeps_blob Pdf Sample.jan2 "id-1" (Sample.rename_to "b.pdf")
           Sample.one_pdf
           (Metadata "id-1" "a.pdf" "uploads/pdfs/a.pdf" 15
              "2024-01-01T00:00:00.000Z" "2024-01-01T00:00:00.000Z")
           "uploads/pdfs/"); vm_compute; reflexivity.
Defined.

(** ** Unlink failures *)

Lemma unlink_message_status c :
  next (createError 500 (unlink_message c))
  = Response 500 (SendError 500 (unlink_message c)).
Proof. now destruct c. Qed.

(** C2, as the code has it: a delete of a record whose blob is no longer
    on the disk answers 500 and leaves the server as it was, the record
    included; an unlink of a file that is not there is an error like any
    other. *)
Theorem delete_of_absent_blob_fails (c : category) (e : env) (rid : string)
    (s : server) (md : metadata) :
  Index_get (files_of c s) rid = Some md ->
  disk s !! filepath md = None ->
  delete_delete c e rid s = (s, Response 500 (SendError 500 (unlink_message c))).
Proof.
  intros Hget Habsent. unfold delete_delete, fs_unlink.
  rewrite Hget. cbn zeta. rewrite Habsent.
  now rewrite unlink_message_status.
Qed.

Lemma delete_of_absent_blob_fails_witness :
  delete_delete Pdf Sample.jan3 "id-1" Sample.orphaned
  = (Sample.orphaned, Response 500 (SendError 500 "Error deleting PDF file")).
Proof.
  apply (delete_of_absent_blob_fails Pdf Sample.jan3 "id-1" Sample.orphaned
           (Metadata "id-1" "a.pdf" "uploads/pdfs/a.pdf" 15
              "2024-01-01T00:00:00.000Z" "2024-01-01T00:00:00.000Z"));
    vm_compute; reflexivity.
Defined.

(** C2 is refuted on a state the server reaches by its own requests. *)
Lemma delete_tolerates_absent_blob_fails : ~ delete_tolerates_absent_blob.
Proof.
  intros H.
  destruct (H Pdf Sample.jan3 "id-1" Sample.orphaned
              (Metadata "id-1" "a.pdf" "uploads/pdfs/a.pdf" 15
                 "2024-01-01T00:00:00.000Z" "2024-01-01T00:00:00.000Z"))
    as [H200 _]; try (vm_compute; reflexivity).
  vm_compute in H200. discriminate.
Qed.

(** C3, as the code has it: when the system refuses to unlink the old
    blob, an edit with a file answers 500 and both Indexes are what they
    were, so the record keeps all its fields; the uploaded file is on the
    disk by then, stored by the upload middleware before the handler
    ran. *)
Theorem edit_unlink_refused (c : category) (e : env) (rid : string) (f : upload)
    (b : edit_body) (s : server) (md : metadata) :
  Index_get (files_of c s) rid = Some md ->
  is_Some (disk s !! filepath md) ->
  unlink_fault e = true ->
  List.find (fun r => (filename r =? originalname f)%string && negb (id r =? rid)%string)
    (Index_values (files_of c s)) = None ->
  let r := patch_edit c e rid (Some f) b s in
  snd r = Response 500 (SendError 500 (unlink_old_message c))
  /\ same_indexes s (fst r)
  /\ Index_get (files_of c (fst r)) rid = Some md
  /\ disk (fst r) = <[destination f +:+ originalname f := buffer f]> (disk s).
Proof.
  intros Hget Hblob Hfault Hfind r. unfold r, patch_edit, upload_single, storage_filename.
  cbn [fst snd file_originalname]. rewrite files_of_with_disk, Hget, Hfind.
  unfold fs_unlink. cbn [disk with_disk].
  assert (Hthere : is_Some (<[destination f +:+ originalname f := buffer f]> (disk s)
                              !! filepath md)).
  { rewrite lookup_insert. case_decide; eauto. }
  destruct Hthere as [x ->]. rewrite Hfault. cbn [fst snd].
  rewrite files_of_with_disk.
  repeat split; auto. now destruct c.
Qed.

Lemma edit_unlink_refused_witness :
  let r := patch_edit Pdf Sample.jan2_unlink_refused "id-1" (Some (Sample.pdf "b.pdf"))
             Sample.no_fields Sample.one_pdf in
  snd r = Response 500 (SendError 500 "Error deleting old PDF file")
  /\ same_indexes Sample.one_pdf (fst r)
  /\ Index_get (files_of Pdf (fst r)) "id-1"
     = Some (Metadata "id-1" "a.pdf" "uploads/pdfs/a.pdf" 15
               "2024-01-01T00:00:00.000Z" "2024-01-01T00:00:00.000Z")
  /\ disk (fst r) = <["uploads/pdfs/b.pdf" := "%PDF-1.4 sample"]> (disk Sample.one_pdf).
Proof.
  apply (edit_unlink_refused Pdf Sample.jan2_unlink_refused "id-1" (Sample.pdf "b.pdf")
           Sample.no_fields Sample.one_pdf
           (Metadata "id-1" "a.pdf" "uploads/pdfs/a.pdf" 15
              "2024-01-01T00:00:00.000Z" "2024-01-01T00:00:00.000Z"));
    try (vm_compute; reflexivity).
  vm_compute. eauto.
Defined.

(** C3 is refuted: the new blob is on the disk after the failed edit and
    was not there before. *)
Lemma edit_aborts_before_write_fails : ~ edit_aborts_before_write.
Proof.
  intros H.
  destruct (H Pdf Sample.jan2_unlink_refused "id-1" (Sample.pdf "b.pdf")
              Sample.no_fields Sample.one_pdf
              (Metadata "id-1" "a.pdf" "uploads/pdfs/a.pdf" 15
                 "2024-01-01T00:00:00.000Z" "2024-01-01T00:00:00.000Z"))
    as (_ & _ & Hdisk); try (vm_compute; reflexivity).
  - vm_compute. eauto.
  - vm_compute in Hdisk. discriminate.
Qed.

(** C1: at the failing input.  Two files are created under different
    names and the second is then renamed, by an edit without a file, to
    the name of the first: the three requests succeed and the Index holds
    two records named [a.pdf]. *)
Theorem rename_duplicates_filename :
  let events := [(Sample.jan1, PostCreate Pdf (Some (Sample.pdf "a.pdf")));
                 (Sample.jan2, PostCreate Pdf (Some (Sample.pdf "b.pdf")));
                 (Sample.jan3, PatchEdit Pdf "id-2" None (Sample.rename_to "a.pdf"))] in
  List.map status (snd (run events (initial ∅))) = [200; 200; 200]%N
  /\ List.map filename (Index_values (pdfFiles (fst (run events (initial ∅)))))
     = ["a.pdf"; "a.pdf"]
  /\ named "a.pdf" (pdfFiles (fst (run events (initial ∅)))) = 2.
Proof. vm_compute. repeat split. Qed.

(** ** The order of dates *)

Lemma ascii_compare_lt_trans x y z :
  Ascii.compare x y = Lt -> Ascii.compare y z = Lt -> Ascii.compare x z = Lt.
Proof.
  unfold Ascii.compare. rewrite !N.compare_lt_iff. lia.
Qed.

Lemma compare_lt_trans a : forall b c,
  String.compare a b = Lt -> String.compare b c = Lt -> String.compare a c = Lt.
Proof.
  induction a as [|x a IH]; intros [|y b] [|z c]; simpl; try discriminate; auto.
  destruct (Ascii.compare x y) eqn:Exy; try discriminate.
  - apply Ascii.compare_eq_iff in Exy. subst y.
    destruct (Ascii.compare x z); try discriminate; eauto.
  - intros _. destruct (Ascii.compare y z) eqn:Eyz; try discriminate.
    + apply Ascii.compare_eq_iff in Eyz. subst z. now rewrite Exy.
    + intros _. now rewrite (ascii_compare_lt_trans x y z).
Qed.

Lemma compare_refl a : String.compare a a = Eq.
Proof.
  induction a as [|x a IH]; simpl; auto.
  unfold Ascii.compare. now rewrite N.compare_refl.
Qed.

Lemma str_le_refl a : str_le a a.
Proof. unfold str_le, String.leb. now rewrite compare_refl. Qed.

Lemma str_lt_le a b : str_lt a b -> str_le a b.
Proof.
  unfold str_lt, str_le, String.ltb, String.leb.
  destruct (String.compare a b); congruence.
Qed.

Lemma str_le_lt_trans a b c : str_le a b -> str_lt b c -> str_lt a c.
Proof.
  unfold str_lt, str_le, String.ltb, String.leb.
  destruct (String.compare a b) eqn:Eab; try discriminate; intros _.
  - apply String.compare_eq_iff in Eab. now subst b.
  - destruct (String.compare b c) eqn:Ebc; try discriminate; intros _.
    now rewrite (compare_lt_trans a b c).
Qed.

Lemma str_le_trans a b c : str_le a b -> str_le b c -> str_le a c.
Proof.
  intros Hab. unfold str_le at 1, String.leb.
  destruct (String.compare b c) eqn:Ebc; try discriminate; intros _.
  - apply String.compare_eq_iff in Ebc. now subst c.
  - apply str_lt_le, (str_le_lt_trans a b c Hab).
    unfold str_lt, String.ltb. now rewrite Ebc.
Qed.

(** ** The effect of each request on the Indexes *)

Lemma files_of_with_files_ne c c' s m : c' <> c -> files_of c' (with_files c s m) = files_of c' s.
Proof. destruct c, c'; simpl; congruence. Qed.

Lemma same_indexes_files_of s s' c : same_indexes s s' -> files_of c s' = files_of c s.
Proof. intros [H1 H2]. now destruct c. Qed.

(** A create either leaves both Indexes or sets the new record. *)
Lemma post_create_effect c e part s :
  let r := post_create c e part s in
  (status (snd r) <> 200%N /\ same_indexes s (fst r))
  \/ (exists f, part = Some f
        /\ status (snd r) = 200%N
        /\ List.find (fun x => (filename x =? originalname f)%string)
             (Index_values (files_of c s)) = None
        /\ files_of c (fst r)
           = Index_set (files_of c s) (uuid e)
               (Metadata (uuid e) (originalname f) (destination f +:+ originalname f)
                  (N.of_nat (String.length (buffer f))) (now e) (now e))
        /\ forall c', c' <> c -> files_of c' (fst r) = files_of c' s).
Proof.
  intros r. unfold r.
  destruct (post_create_cases c e part s)
    as [[_ ->]|[(f & d & _ & _ & _ & ->)|(f & d & md & -> & _ & -> & Hfind & ->)]].
  - left. simpl. split; [discriminate | now split].
  - left. simpl. split; [discriminate | apply same_indexes_with_disk].
  - right. exists f. cbn [fst snd]. repeat split; auto.
    + now rewrite files_of_update_data, files_of_with_files.
    + intros c' Hc. rewrite files_of_update_data, files_of_with_files_ne by exact Hc.
      apply files_of_with_disk.
Qed.

(** An edit either leaves both Indexes or sets the edited record. *)
Lemma patch_edit_effect c e rid part b s :
  let r := patch_edit c e rid part b s in
  (status (snd r) <> 200%N /\ same_indexes s (fst r))
  \/ (exists md, Index_get (files_of c s) rid = Some md
        /\ status (snd r) = 200%N
        /\ files_of c (fst r)
           = Index_set (files_of c s) rid
               (edited c e (snd (upload_single (disk s) part)) b md)
        /\ forall c', c' <> c -> files_of c' (fst r) = files_of c' s).
Proof.
  intros r. unfold r, patch_edit.
  destruct (upload_single (disk s) part) as [d file]. cbn [snd].
  rewrite files_of_with_disk.
  destruct (Index_get (files_of c s) rid) as [md|].
  2:{ left. simpl. split; [discriminate | apply same_indexes_with_disk]. }
  assert (Hok : forall d', 
    files_of c (update_data c e (with_files c (with_disk (with_disk s d) d')
                  (Index_set (files_of c s) rid (edited c e file b md))))
    = Index_set (files_of c s) rid (edited c e file b md)
    /\ forall c', c' <> c ->
         files_of c' (update_data c e (with_files c (with_disk (with_disk s d) d')
                  (Index_set (files_of c s) rid (edited c e file b md))))
         = files_of c' s).
  { intros d'. split.
    - now rewrite files_of_update_data, files_of_with_files.
    - intros c' Hc. rewrite files_of_update_data, files_of_with_files_ne by exact Hc.
      now rewrite !files_of_with_disk. }
  destruct file as [file|].
  - destruct (List.find _ _).
    { left. simpl. split; [discriminate | apply same_indexes_with_disk]. }
    destruct (fs_unlink _ _ _) as [d'|err].
    + right. exists md. cbn [fst snd]. rewrite !files_of_with_disk.
      split; [reflexivity|]. split; [reflexivity|]. apply (Hok d').
    + left. simpl. split; [discriminate | apply same_indexes_with_disk].
  - right. exists md. cbn [fst snd].
    split; [reflexivity|]. split; [reflexivity|].
    destruct (Hok d) as [H1 H2]. split.
    + now rewrite files_of_update_data, files_of_with_files.
    + intros c' Hc. rewrite files_of_update_data, files_of_with_files_ne by exact Hc.
      apply files_of_with_disk.
Qed.

(** A delete either leaves both Indexes or removes the record. *)
Lemma delete_delete_effect c e rid s :
  let r := delete_delete c e rid s in
  (status (snd r) <> 200%N /\ fst r = s)
  \/ (exists md, Index_get (files_of c s) rid = Some md
        /\ status (snd r) = 200%N
        /\ files_of c (fst r) = Index_delete (files_of c s) rid
        /\ forall c', c' <> c -> files_of c' (fst r) = files_of c' s).
Proof.
  intros r. unfold r, delete_delete.
  destruct (Index_get (files_of c s) rid) as [md|].
  2:{ left. simpl. split; [discriminate | reflexivity]. }
  destruct (fs_unlink _ _ _) as [d'|err].
  - right. exists md. cbn [fst snd]. repeat split.
    + now rewrite files_of_update_data, files_of_with_files, files_of_with_disk.
    + intros c' Hc. rewrite files_of_update_data, files_of_with_files_ne by exact Hc.
      apply files_of_with_disk.
  - left. simpl. split; [discriminate | reflexivity].
Qed.

(** ** Records of an Index *)

Lemma Forall_values_set (P : metadata -> Prop) (m : Index) k v :
  Forall P (Index_values m) -> P v -> Forall P (Index_values (Index_set m k v)).
Proof.
  unfold Index_values, Map_values, Index_set. intros Hm Hv.
  induction m as [|[k' v'] m IH]; simpl in *.
  - now constructor.
  - inversion Hm; subst. destruct (k' =? k)%string; simpl; constructor; auto.
Qed.

Lemma Forall_values_delete (P : metadata -> Prop) (m : Index) k :
  Forall P (Index_values m) -> Forall P (Index_values (Index_delete m k)).
Proof.
  unfold Index_values, Map_values, Index_delete, Map_delete. intros Hm.
  induction m as [|[k' v'] m IH]; simpl in *; auto.
  inversion Hm; subst. destruct (k' =? k)%string; simpl; auto.
Qed.

Lemma Index_get_In (m : Index) k md : Index_get m k = Some md -> In md (Index_values m).
Proof.
  unfold Index_get, Index_values, Map_values.
  induction m as [|[k' v'] m IH]; simpl; [discriminate|].
  destruct (k' =? k)%string; [intros [= ->]; now left | auto].
Qed.

(** ** Dates along a run *)

Lemma record_dated_mono t t' md : str_le t t' -> record_dated t md -> record_dated t' md.
Proof. intros Ht [H1 H2]. split; [exact H1 | eapply str_le_trans; eauto]. Qed.

Lemma dated_by_mono t t' s : str_le t t' -> dated_by t s -> dated_by t' s.
Proof.
  intros Ht H c. eapply List.Forall_impl; [|apply H]. intros md. now apply record_dated_mono.
Qed.

Lemma dated_by_same_indexes t s s' : same_indexes s s' -> dated_by t s -> dated_by t s'.
Proof. intros Hs H c. rewrite (same_indexes_files_of s s' c Hs). apply H. Qed.

Lemma uploadDate_apply_body c b md :
  truthy (newUploadDate b) = false -> uploadDate (apply_body c b md) = uploadDate md.
Proof.
  intros H. unfold apply_body. rewrite H.
  destruct c, (truthy (newFilename b)), (truthy (newEditDate b)); reflexivity.
Qed.

Lemma edited_dates c e file b md :
  editDate (edited c e file b md) = now e
  /\ (truthy (newUploadDate b) = false ->
      uploadDate (edited c e file b md) = uploadDate md).
Proof.
  unfold edited. cbn [editDate uploadDate]. split; [reflexivity|].
  intros H. rewrite uploadDate_apply_body by exact H. now destruct file.
Qed.

(** One request keeps the records dated. *)
Lemma handle_dated t e r s :
  dated_by t s -> str_le t (now e) -> keeps_upload_date r ->
  dated_by (now e) (fst (handle e r s)).
Proof.
  intros Hs Ht Hr.
  assert (Hmono : dated_by (now e) s) by (eapply dated_by_mono; eauto).
  assert (Hsplit : forall c (s' : server) (m : Index),
            files_of c s' = m -> Forall (record_dated (now e)) (Index_values m) ->
            (forall c', c' <> c -> files_of c' s' = files_of c' s) ->
            dated_by (now e) s').
  { intros c s' m Hc Hm Hother c'.
    assert (Hdec : c' = c \/ c' <> c) by (destruct c, c'; auto; right; discriminate).
    destruct Hdec as [->|Hne]; [now rewrite Hc|].
    rewrite (Hother c' Hne). apply Hmono. }
  destruct r as [|c|c rid|c part|c rid part b|c rid|]; cbn [handle fst]; auto.
  - destruct (post_create_effect c e part s) as [[_ Hsame]|(f & _ & _ & _ & Hset & Hother)].
    + eapply dated_by_same_indexes; eauto.
    + eapply Hsplit; [exact Hset| |exact Hother].
      apply Forall_values_set; [apply Hmono|].
      split; apply str_le_refl.
  - destruct (patch_edit_effect c e rid part b s)
      as [[_ Hsame]|(md & Hget & _ & Hset & Hother)].
    + eapply dated_by_same_indexes; eauto.
    + eapply Hsplit; [exact Hset| |exact Hother].
      apply Forall_values_set; [apply Hmono|].
      destruct (edited_dates c e (snd (upload_single (disk s) part)) b md) as [He Hu].
      split; rewrite He; [|apply str_le_refl].
      rewrite (Hu Hr).
      pose proof (Hs c) as Hall. rewrite List.Forall_forall in Hall.
      destruct (Hall md (Index_get_In _ _ _ Hget)) as [H1 H2].
      eapply str_le_trans; [exact H1|]. eapply str_le_trans; eauto.
  - destruct (delete_delete_effect c e rid s) as [[_ ->]|(md & _ & _ & Hdel & Hother)]; auto.
    eapply Hsplit; [exact Hdel| |exact Hother].
    apply Forall_values_delete, Hmono.
Qed.

Lemma run_dated events : forall t s,
  dated_by t s -> clock_from t events -> keeps_upload_dates events ->
  dated_by (last_reading t events) (fst (run events s)).
Proof.
  induction events as [|[e r] events IH]; intros t s Hs Hclock Hkeep; simpl; auto.
  destruct Hclock as [Ht Hclock]. inversion Hkeep as [|? ? Hr Hkeep']; subst.
  pose proof (handle_dated t e r s Hs Ht Hr) as Hstep.
  destruct (handle e r s) as [s1 resp]. specialize (IH (now e) s1 Hstep Hclock Hkeep').
  destruct (run events s1) as [s2 resps]. exact IH.
Qed.

Lemma dated_by_initial t d : dated_by t (initial d).
Proof. intros []; constructor. Qed.




(** ** The JSON text of a value is read back *)

Lemma append_assoc (a b c : string) : (a +:+ b) +:+ c = a +:+ (b +:+ c).
Proof. induction a as [|x a IH]; simpl; congruence. Qed.

Lemma append_nil_r (a : string) : a +:+ EmptyString = a.
Proof. induction a as [|x a IH]; simpl; congruence. Qed.

Lemma length_append (a b : string) :
  String.length (a +:+ b) = String.length a + String.length b.
Proof. induction a as [|x a IH]; simpl; auto. Qed.

(** *** Numbers *)

Lemma parse_digits_string_of_uint (u : Decimal.uint) (rest : string) :
  delimited rest ->
  parse_digits (NilEmpty.string_of_uint u +:+ rest) = (u, rest).
Proof.
  intros Hrest. induction u; simpl; try (rewrite IHu; reflexivity).
  destruct rest as [|c rest]; simpl; auto.
  destruct Hrest as [-> _]. reflexivity.
Qed.

(** The digits of a number start with no zero, the number zero apart. *)
Lemma to_uint_head (n : N) :
  N.to_uint n = Decimal.D0 Decimal.Nil
  \/ (N.to_uint n <> Decimal.Nil /\ forall u, N.to_uint n <> Decimal.D0 u).
Proof.
  pose proof (DecimalN.Unsigned.to_of (N.to_uint n)) as H.
  rewrite DecimalN.Unsigned.of_to in H. rewrite H.
  unfold Decimal.unorm.
  destruct (Decimal.nzhead (N.to_uint n)) eqn:E; auto; right;
    (split; [discriminate|]); intros w Hw; try discriminate.
  exact (DecimalFacts.nzhead_nonzero _ _ E).
Qed.

Lemma parse_natural_to_uint (n : N) (rest : string) :
  delimited rest ->
  parse_natural (NilEmpty.string_of_uint (N.to_uint n) +:+ rest) = Some (n, rest).
Proof.
  intros Hrest. unfold parse_natural.
  rewrite parse_digits_string_of_uint by exact Hrest.
  assert (Hfrac : starts_fraction rest = false).
  { destruct rest; [reflexivity | apply Hrest]. }
  rewrite Hfrac.
  destruct (to_uint_head n) as [H0|[Hnil Hzero]].
  - rewrite H0. f_equal. f_equal.
    rewrite <- (DecimalN.Unsigned.of_to n), H0. reflexivity.
  - destruct (N.to_uint n) eqn:E; try contradiction;
      try (rewrite <- E, DecimalN.Unsigned.of_to; reflexivity).
    exfalso. eapply Hzero. reflexivity.
Qed.

Ltac each_char c :=
  destruct c as [[] [] [] [] [] [] [] []].

Lemma digit_not_minus c : is_digit c = true -> (c =? "-")%char = false.
Proof. each_char c; vm_compute; congruence. Qed.

Lemma string_of_uint_head (u : Decimal.uint) :
  u <> Decimal.Nil ->
  exists c s, NilEmpty.string_of_uint u = String c s /\ is_digit c = true.
Proof. destruct u; [congruence | ..]; intros _; eexists _, _; split; reflexivity. Qed.

Lemma to_uint_nonnil (n : N) : N.to_uint n <> Decimal.Nil.
Proof. destruct (to_uint_head n) as [H|[H _]]; [rewrite H; discriminate | exact H]. Qed.

Lemma parse_number_write (n : Z) (rest : string) :
  delimited rest ->
  parse_number (write_number n +:+ rest) = Some (VNum n, rest).
Proof.
  intros Hrest.
  assert (Hnat : forall k : N,
    parse_number (NilEmpty.string_of_uint (N.to_uint k) +:+ rest)
    = Some (VNum (Z.of_N k), rest)).
  { intros k. pose proof (parse_natural_to_uint k rest Hrest) as H.
    destruct (string_of_uint_head _ (to_uint_nonnil k)) as (c & s & E & Hc).
    rewrite E in *. simpl in *. rewrite (digit_not_minus c Hc), H. reflexivity. }
  destruct n as [|p|p].
  - apply (Hnat 0%N).
  - apply (Hnat (N.pos p)).
  - unfold write_number. simpl.
    change (Pos.to_uint p) with (N.to_uint (N.pos p)).
    rewrite (parse_natural_to_uint (N.pos p) rest Hrest). reflexivity.
Qed.

(** *** Strings *)

Lemma parse_chars_escape_char (c : ascii) (t : string) :
  parse_chars (escape_char c +:+ t)
  = match parse_chars t with
    | Some (u, r) => Some (String c u, r)
    | None => None
    end.
Proof. each_char c; reflexivity. Qed.

Lemma parse_chars_escape (s rest : string) :
  parse_chars (escape s +:+ String quote_char rest) = Some (s, rest).
Proof.
  induction s as [|c s IH]; [reflexivity|].
  simpl escape. rewrite append_assoc, parse_chars_escape_char, IH. reflexivity.
Qed.

(** *** Values *)

Lemma value_start_facts c :
  value_start c = true ->
  is_json_ws c = false /\ (c =? "]")%char = false /\ (c =? "}")%char = false.
Proof. each_char c; vm_compute; intros; repeat split; congruence. Qed.

Lemma write_value_head (v : value) :
  exists c s, write_value v = String c s /\ value_start c = true.
Proof.
  destruct v as [| |[]|n|s|l|ps|neg]; simpl; try (eexists _, _; split; reflexivity).
  destruct n as [|p|p]; unfold write_number;
    try (eexists _, _; split; reflexivity).
  destruct (string_of_uint_head _ (to_uint_nonnil (Z.to_N (Z.pos p)))) as (c & s & E & Hc).
  rewrite E. exists c, s. split; [reflexivity|].
  unfold value_start. now rewrite Hc.
Qed.

Lemma parse_value_number fuel c s :
  (is_digit c || (c =? "-")%char) = true ->
  parse_value (S fuel) (String c s) = parse_number (String c s).
Proof. each_char c; try discriminate; intros _; reflexivity. Qed.

Lemma write_number_head (n : Z) :
  exists c s, write_number n = String c s /\ (is_digit c || (c =? "-")%char) = true.
Proof.
  destruct n as [|p|p]; unfold write_number;
    try (eexists _, _; split; reflexivity).
  destruct (string_of_uint_head _ (to_uint_nonnil (Z.to_N (Z.pos p)))) as (c & s & E & Hc).
  rewrite E. exists c, s. split; [reflexivity|]. now rewrite Hc.
Qed.

Lemma weight_arr l : weight (VArr l) = S (weight_elements l).
Proof.
  unfold weight_elements. simpl. f_equal.
  induction l as [|x l IH]; simpl; auto.
Qed.

Lemma weight_obj ps : weight (VObj ps) = S (weight_members ps).
Proof.
  unfold weight_members. simpl. f_equal.
  induction ps as [|[k x] ps IH]; simpl; auto.
Qed.

Lemma write_arr l :
  write_value (VArr l) = "[" +:+ String.concat "," (List.map write_value l) +:+ "]".
Proof. reflexivity. Qed.

Lemma write_obj_props ps :
  write_value (VObj ps) = "{" +:+ String.concat "," (write_props ps) +:+ "}".
Proof. reflexivity. Qed.

Lemma write_props_wf ps :
  List.Forall (fun p => json_wf (snd p)) ps ->
  write_props ps = List.map member_text ps.
Proof.
  intros Hwf. induction Hwf as [|[k x] ps Hx Hps IH]; simpl; auto.
  rewrite IH. simpl in Hx. destruct x; try reflexivity. inversion Hx.
Qed.

Lemma write_obj ps :
  List.Forall (fun p => json_wf (snd p)) ps ->
  write_value (VObj ps) = "{" +:+ String.concat "," (List.map member_text ps) +:+ "}".
Proof. intros Hwf. now rewrite write_obj_props, write_props_wf. Qed.

Lemma delimited_comma s : delimited (String "," s).
Proof. now split. Qed.

Lemma delimited_bracket s : delimited (String "]" s).
Proof. now split. Qed.

Lemma delimited_brace s : delimited (String "}" s).
Proof. now split. Qed.

Lemma next_is_value v rest c :
  (c =? "]")%char = true \/ (c =? "}")%char = true ->
  next_is c (write_value v +:+ rest) = false.
Proof.
  intros Hc. destruct (write_value_head v) as (x & s & -> & Hx).
  destruct (value_start_facts x Hx) as (Hws & H1 & H2).
  unfold next_is. simpl. rewrite Hws.
  destruct Hc as [Hc|Hc]; apply Ascii.eqb_eq in Hc; subst c; assumption.
Qed.

Lemma concat_cons (sep a : string) (b : string) (l : list string) :
  String.concat sep (a :: b :: l) = a +:+ sep +:+ String.concat sep (b :: l).
Proof. reflexivity. Qed.

Lemma parse_elements_more fuel s v tl :
  parse_value fuel s = Some (v, String "," tl) ->
  parse_elements (S fuel) s
  = match parse_elements fuel tl with
    | Some (l, r) => Some (v :: l, r)
    | None => None
    end.
Proof. intros H. simpl. now rewrite H. Qed.

Lemma parse_elements_last fuel s v r :
  parse_value fuel s = Some (v, String "]" r) ->
  parse_elements (S fuel) s = Some ([v], r).
Proof. intros H. simpl. now rewrite H. Qed.

Lemma weight_elements_cons x l :
  weight_elements (x :: l) = S (weight x + weight_elements l).
Proof. reflexivity. Qed.

Lemma weight_members_cons p ps :
  weight_members (p :: ps) = S (weight (snd p) + weight_members ps).
Proof. reflexivity. Qed.

Lemma parse_elements_write (l : list value) :
  List.Forall reads_back l -> l <> [] ->
  forall fuel rest, weight_elements l <= fuel ->
    parse_elements fuel (String.concat "," (List.map write_value l) +:+ String "]" rest)
    = Some (l, rest).
Proof.
  induction 1 as [|x l Hx Hl IH]; [congruence|]. intros _ fuel rest Hfuel.
  rewrite weight_elements_cons in Hfuel.
  destruct fuel as [|fuel]; [lia|].
  destruct l as [|y l].
  - apply parse_elements_last. apply Hx; [lia | apply delimited_bracket].
  - rewrite !map_cons, concat_cons, <- !map_cons, append_assoc.
    erewrite parse_elements_more;
      [|apply Hx; [lia | apply delimited_comma]].
    rewrite IH; [reflexivity | congruence | lia].
Qed.

Lemma member_text_app k x tail :
  member_text (k, x) +:+ tail
  = String quote_char (escape k +:+ String quote_char (String ":" (write_value x +:+ tail))).
Proof.
  unfold member_text, quote. cbn [fst snd].
  change (String quote_char (escape k +:+ String quote_char "") +:+ ":" +:+ write_value x)
    with (String quote_char ((escape k +:+ String quote_char "") +:+ ":" +:+ write_value x)).
  change (String quote_char ((escape k +:+ String quote_char "") +:+ ":" +:+ write_value x)
          +:+ tail)
    with (String quote_char
            (((escape k +:+ String quote_char "") +:+ ":" +:+ write_value x) +:+ tail)).
  f_equal. rewrite !append_assoc. reflexivity.
Qed.

Lemma parse_members_step fuel k x tail :
  parse_members (S fuel) (member_text (k, x) +:+ tail)
  = match parse_value fuel (write_value x +:+ tail) with
    | None => None
    | Some (v, r) =>
        match skip_ws r with
        | String c r3 =>
            if (c =? ",")%char then
              match parse_members fuel r3 with
              | Some (ps, r4) => Some ((k, v) :: ps, r4)
              | None => None
              end
            else if (c =? "}")%char then Some ([(k, v)], r3)
            else None
        | EmptyString => None
        end
    end.
Proof.
  rewrite member_text_app.
  change (parse_members (S fuel) (String quote_char ?body))
    with (match parse_chars body with
          | None => None
          | Some (k, r) =>
              match skip_ws r with
              | String colon r' =>
                  if (colon =? ":")%char then
                    match parse_value fuel r' with
                    | None => None
                    | Some (v, r'') =>
                        match skip_ws r'' with
                        | String c r3 =>
                            if (c =? ",")%char then
                              match parse_members fuel r3 with
                              | Some (ps, r4) => Some ((k, v) :: ps, r4)
                              | None => None
                              end
                            else if (c =? "}")%char then Some ([(k, v)], r3)
                            else None
                        | EmptyString => None
                        end
                    end
                  else None
              | EmptyString => None
              end
          end).
  rewrite parse_chars_escape. reflexivity.
Qed.

Lemma parse_members_write (ps : list (string * value)) :
  List.Forall (fun p => reads_back (snd p)) ps -> ps <> [] ->
  forall fuel rest, weight_members ps <= fuel ->
    parse_members fuel (String.concat "," (List.map member_text ps) +:+ String "}" rest)
    = Some (ps, rest).
Proof.
  induction 1 as [|[k x] ps Hx Hps IH]; [congruence|]. intros _ fuel rest Hfuel.
  rewrite weight_members_cons in Hfuel. cbn [snd] in Hfuel, Hx.
  destruct fuel as [|fuel]; [lia|].
  destruct ps as [|q ps].
  - cbn [List.map String.concat]. rewrite parse_members_step.
    rewrite Hx; [reflexivity | lia | apply delimited_brace].
  - rewrite !map_cons, concat_cons, <- !map_cons, append_assoc, parse_members_step.
    rewrite Hx; [|lia | apply delimited_comma].
    change (("," +:+ String.concat "," (List.map member_text (q :: ps))) +:+ String "}" rest)
      with (String "," (String.concat "," (List.map member_text (q :: ps)) +:+ String "}" rest)).
    change (skip_ws (String "," ?s)) with (String "," s). cbv iota beta.
    change ("," =? ",")%char with true. cbv iota.
    rewrite IH; [reflexivity | congruence | lia].
Qed.

(** Entries with different keys go into a Map as they come. *)
Section MapOfEntries.
Context {K V : Type} (same : K -> K -> bool).

Lemma Map_set_fresh (m : list (K * V)) k v :
  List.Forall (fun e => same (fst e) k = false) m ->
  Map_set same m k v = m ++ [(k, v)].
Proof.
  induction 1 as [|[k' v'] m Hk Hm IH]; simpl; [reflexivity|].
  simpl in Hk. now rewrite Hk, IH.
Qed.

Lemma fold_Map_set_distinct (es : list (K * V)) : forall acc,
  distinct_keys same es ->
  List.Forall (fun a => List.Forall (fun b => same (fst a) (fst b) = false) es) acc ->
  fold_left (fun m e => Map_set same m (fst e) (snd e)) es acc = acc ++ es.
Proof.
  induction es as [|[k v] es IH]; intros acc Hes Hacc; simpl.
  - now rewrite app_nil_r.
  - inversion Hes as [|? ? Hhead Htail]; subst.
    rewrite Map_set_fresh.
    + rewrite IH; [now rewrite <- app_assoc | exact Htail |].
      apply List.Forall_app. split.
      * eapply List.Forall_impl; [|exact Hacc]. intros a Ha. now inversion Ha.
      * constructor; [exact Hhead | constructor].
    + eapply List.Forall_impl; [|exact Hacc]. intros a Ha. now inversion Ha.
Qed.

Lemma Map_of_entries_distinct (es : list (K * V)) :
  distinct_keys same es -> Map_of_entries same es = es.
Proof.
  intros H. unfold Map_of_entries. now rewrite fold_Map_set_distinct.
Qed.
End MapOfEntries.

Lemma distinct_keys_NoDup {V : Type} (ps : list (string * V)) :
  List.NoDup (List.map fst ps) -> distinct_keys String.eqb ps.
Proof.
  induction ps as [|[k v] ps IH]; simpl; intros H; [constructor|].
  inversion H as [|? ? Hk Hps]; subst. constructor; [|now apply IH].
  apply List.Forall_forall. intros [k' v'] Hin. simpl.
  apply String.eqb_neq. intros ->. apply Hk.
  apply List.in_map_iff. now exists (k', v').
Qed.

Lemma define_properties_NoDup ps :
  List.NoDup (List.map fst ps) -> define_properties ps = ps.
Proof. intros H. apply Map_of_entries_distinct, distinct_keys_NoDup, H. Qed.

Lemma Forall_modus_ponens {A : Type} (P Q : A -> Prop) (l : list A) :
  List.Forall (fun x => P x -> Q x) l -> List.Forall P l -> List.Forall Q l.
Proof. induction 1; inversion 1; subst; constructor; auto. Qed.

Lemma reads_back_wf (v : value) : json_wf v -> reads_back v.
Proof.
  induction v as [| |b|n|s|l IH|ps IH|neg] using value_nested_ind;
    intros Hwf fuel rest Hfuel Hrest; [| | | | | | |inversion Hwf].
  - inversion Hwf.
  - destruct fuel; [simpl in Hfuel; lia | reflexivity].
  - destruct fuel; [simpl in Hfuel; lia | destruct b; reflexivity].
  - destruct fuel; [simpl in Hfuel; lia|].
    destruct (write_number_head n) as (c & s & E & Hc).
    cbn [write_value]. pose proof (parse_number_write n rest Hrest) as H.
    rewrite E in *. cbn [String.append] in *.
    now rewrite parse_value_number.
  - destruct fuel; [simpl in Hfuel; lia|].
    cbn [write_value]. unfold quote.
    change (String quote_char (escape s +:+ String quote_char "") +:+ rest)
      with (String quote_char ((escape s +:+ String quote_char "") +:+ rest)).
    rewrite append_assoc.
    change (String quote_char "" +:+ rest) with (String quote_char rest).
    change (parse_value (S fuel) (String quote_char ?body))
      with (match parse_chars body with
            | Some (t, r) => Some (VStr t, r)
            | None => None
            end).
    now rewrite parse_chars_escape.
  - inversion Hwf as [| | | |l' Hl|]; subst.
    rewrite weight_arr in Hfuel. destruct fuel; [lia|].
    rewrite write_arr.
    change (("[" +:+ String.concat "," (List.map write_value l) +:+ "]") +:+ rest)
      with (String "[" ((String.concat "," (List.map write_value l) +:+ "]") +:+ rest)).
    rewrite append_assoc.
    change ("]" +:+ rest) with (String "]" rest).
    change (parse_value (S fuel) (String "[" ?s'))
      with (if next_is "]" s' then Some (VArr [], after_next s')
            else match parse_elements fuel s' with
                 | Some (l, r) => Some (VArr l, r)
                 | None => None
                 end).
    destruct l as [|x l]; [reflexivity|].
    assert (Hnext : next_is "]"
              (String.concat "," (List.map write_value (x :: l)) +:+ String "]" rest) = false).
    { destruct l as [|y l].
      - apply next_is_value. now left.
      - rewrite !map_cons, concat_cons, append_assoc. apply next_is_value. now left. }
    rewrite Hnext.
    rewrite parse_elements_write; [reflexivity | | congruence | lia].
    exact (Forall_modus_ponens _ _ _ IH Hl).
  - inversion Hwf as [| | | | |ps' Hdup Hps]; subst.
    rewrite weight_obj in Hfuel. destruct fuel; [lia|].
    rewrite (write_obj ps Hps).
    change (("{" +:+ String.concat "," (List.map member_text ps) +:+ "}") +:+ rest)
      with (String "{" ((String.concat "," (List.map member_text ps) +:+ "}") +:+ rest)).
    rewrite append_assoc.
    change ("}" +:+ rest) with (String "}" rest).
    change (parse_value (S fuel) (String "{" ?s'))
      with (if next_is "}" s' then Some (VObj [], after_next s')
            else match parse_members fuel s' with
                 | Some (ps, r) => Some (VObj (define_properties ps), r)
                 | None => None
                 end).
    destruct ps as [|[k x] ps]; [reflexivity|].
    assert (Hnext : next_is "}"
              (String.concat "," (List.map member_text ((k, x) :: ps)) +:+ String "}" rest) = false).
    { destruct ps as [|q ps].
      - cbn [List.map String.concat]. now rewrite member_text_app.
      - rewrite !map_cons, concat_cons, append_assoc. now rewrite member_text_app. }
    rewrite Hnext.
    rewrite parse_members_write; [now rewrite define_properties_NoDup | | congruence | lia].
    exact (Forall_modus_ponens _ _ _ IH Hps).
Qed.

(** The fuel [JSON_parse] gives is enough for the text of a value. *)
Lemma length_concat_elements (l : list value) :
  List.Forall (fun v => S (weight v) <= 2 * String.length (write_value v)) l ->
  weight_elements l <= 2 * String.length (String.concat "," (List.map write_value l)).
Proof.
  induction 1 as [|x l Hx Hl IH]; [unfold weight_elements; simpl; lia|].
  rewrite weight_elements_cons. destruct l as [|y l].
  - cbn [List.map String.concat]. change (weight_elements []) with 0. lia.
  - rewrite !map_cons, concat_cons, <- !map_cons, !length_append. lia.
Qed.

Lemma length_member_text p : String.length (write_value (snd p)) <= String.length (member_text p).
Proof. unfold member_text. rewrite !length_append. lia. Qed.

Lemma length_concat_members (ps : list (string * value)) :
  List.Forall (fun p => S (weight (snd p)) <= 2 * String.length (write_value (snd p))) ps ->
  weight_members ps <= 2 * String.length (String.concat "," (List.map member_text ps)).
Proof.
  induction 1 as [|p ps Hp Hps IH]; [unfold weight_members; simpl; lia|].
  rewrite weight_members_cons. pose proof (length_member_text p) as Hlen.
  destruct ps as [|q ps].
  - cbn [List.map String.concat]. change (weight_members []) with 0. lia.
  - rewrite !map_cons, concat_cons, <- !map_cons, !length_append. lia.
Qed.

Lemma weight_length (v : value) :
  json_wf v -> S (weight v) <= 2 * String.length (write_value v).
Proof.
  induction v as [| |b|n|s|l IH|ps IH|neg] using value_nested_ind; intros Hwf;
    [| | | | | | |inversion Hwf].
  - inversion Hwf.
  - simpl. lia.
  - destruct b; simpl; lia.
  - destruct (write_number_head n) as (c & s & E & _). cbn [write_value weight].
    rewrite E. simpl. lia.
  - simpl. lia.
  - inversion Hwf as [| | | |l' Hl|]; subst.
    pose proof (length_concat_elements l (Forall_modus_ponens _ _ _ IH Hl)) as Hlen.
    rewrite weight_arr, write_arr, !length_append. simpl String.length. lia.
  - inversion Hwf as [| | | | |ps' Hdup Hps]; subst.
    pose proof (length_concat_members ps (Forall_modus_ponens _ _ _ IH Hps)) as Hlen.
    rewrite weight_obj, (write_obj ps Hps), !length_append. simpl String.length. lia.
Qed.

Lemma JSON_parse_write (v : value) : json_wf v -> JSON_parse (write_value v) = Some v.
Proof.
  intros Hwf. unfold JSON_parse. pose proof (weight_length v Hwf) as Hlen.
  pose proof (reads_back_wf v Hwf (2 * String.length (write_value v) + 1) EmptyString)
    as Hread.
  rewrite append_nil_r in Hread. rewrite Hread; [reflexivity | lia | exact I].
Qed.

(** [JSON.parse(JSON.stringify(v))] is [v]. *)
Lemma JSON_parse_stringify (v : value) :
  json_wf v ->
  exists text, JSON_stringify v = Some text /\ JSON_parse text = Some v.
Proof.
  intros Hwf. exists (write_value v). split; [|now apply JSON_parse_write].
  destruct v; try reflexivity. inversion Hwf.
Qed.

(** ** The snapshot is read back *)

Lemma entries_of_Array_from (m : jsMap) :
  entries_of (List.map (fun e => VArr [fst e; snd e]) m) = Some m.
Proof.
  induction m as [|[k v] m IH]; simpl; [reflexivity|]. now rewrite IH.
Qed.

Lemma distinct_keys_js_of_index (m : Index) :
  List.NoDup (Map_keys m) -> distinct_keys same_value_zero (js_of_index m).
Proof.
  unfold Map_keys. induction m as [|[k r] m IH]; simpl; intros H; [constructor|].
  inversion H as [|? ? Hk Hm]; subst. constructor; [|now apply IH].
  apply List.Forall_forall. intros [k' v'] Hin.
  apply List.in_map_iff in Hin. destruct Hin as ([k0 r0] & [= <- <-] & Hin).
  simpl. apply String.eqb_neq. intros ->. apply Hk.
  apply List.in_map_iff. now exists (k0, r0).
Qed.

Lemma json_wf_metadata (r : metadata) : json_wf (js_of_metadata r).
Proof.
  apply wf_obj.
  - simpl. repeat (constructor; [simpl; intuition discriminate|]). constructor.
  - repeat constructor.
Qed.

Lemma trim_not_blank c s : is_white_space c = false -> trim (String c s) <> EmptyString.
Proof.
  intros Hc. unfold trim. simpl. rewrite Hc. simpl.
  destruct (trimEnd s); [now rewrite Hc | discriminate].
Qed.

Lemma js_of_metadata_inj r r' : js_of_metadata r = js_of_metadata r' -> r = r'.
Proof.
  destruct r, r'. unfold js_of_metadata. simpl. intros H.
  injection H as -> -> -> Hsize -> ->. apply N2Z.inj in Hsize. now subst.
Qed.

Lemma js_of_index_inj m : forall m', js_of_index m' = js_of_index m -> m' = m.
Proof.
  induction m as [|[k r] m IH]; intros [|[k' r'] m'] H; try discriminate; auto.
  unfold js_of_index in H. rewrite !map_cons in H. cbn [fst snd] in H.
  remember (js_of_metadata r) as x eqn:Ex. remember (js_of_metadata r') as x' eqn:Ex'.
  injection H as Hk Hr Hm. subst x x' k'. apply js_of_metadata_inj in Hr. subst r'.
  f_equal. now apply IH.
Qed.

(** The text of an Index on the disk loads as the Index. *)
Lemma json_wf_entries (files : jsMap) :
  writable files -> json_wf (Array_from_entries files).
Proof.
  intros Hw. apply wf_arr. unfold Map_entries.
  induction Hw as [|[k v] files [Hk Hv] Hw IH]; simpl; constructor; auto.
  apply wf_arr. constructor; [exact Hk | constructor; [exact Hv | constructor]].
Qed.

Lemma Map_new_entries (files : jsMap) :
  distinct_keys same_value_zero files ->
  Map_new (Array_from_entries files) = Some files.
Proof.
  intros H. unfold Map_new, Array_from_entries, Map_entries.
  rewrite entries_of_Array_from. now rewrite (Map_of_entries_distinct _ _ H).
Qed.

(** The text of a Map on the disk loads as the Map. *)
Lemma load_saved_map (path : string) (files : jsMap) (disk : gmap string string)
    (old : jsMap) :
  distinct_keys same_value_zero files ->
  writable files ->
  loadFilesDataFromFile path false
    (<[path := write_value (Array_from_entries files)]> disk) old
  = files.
Proof.
  intros Hkeys Hw.
  pose proof (JSON_parse_write _ (json_wf_entries files Hw)) as Hparse.
  unfold loadFilesDataFromFile, fs_readFile. rewrite lookup_insert_eq.
  assert (Hblank : (trim (write_value (Array_from_entries files)) =? "")%string = false).
  { apply String.eqb_neq. apply trim_not_blank. reflexivity. }
  now rewrite Hblank, Hparse, Map_new_entries.
Qed.

Lemma writable_js_of_index (m : Index) : writable (js_of_index m).
Proof.
  unfold writable, js_of_index. apply List.Forall_forall. intros e He.
  apply List.in_map_iff in He. destruct He as ([k r] & <- & _). simpl.
  split; [constructor | apply json_wf_metadata].
Qed.

(** The text of an Index on the disk loads as the Index. *)
Lemma load_saved_text (path : string) (m : Index) (disk : gmap string string)
    (files : jsMap) :
  List.NoDup (Map_keys m) ->
  loadFilesDataFromFile path false
    (<[path := write_value (Array_from_entries (js_of_index m))]> disk) files
  = js_of_index m.
Proof.
  intros Hkeys. apply load_saved_map.
  - now apply distinct_keys_js_of_index.
  - apply writable_js_of_index.
Qed.

Lemma saved_text (path : string) (files : jsMap) (disk : gmap string string) :
  savedFilesDataToFile path files false disk
  = Resolved (<[path := write_value (Array_from_entries files)]> disk).
Proof. now destruct files. Qed.




(** C6: loading the snapshot is total and every failure is recovered.
    A file that is not there or cannot be read, or whose text is not
    JSON, or whose value the Map constructor refuses, gives the empty
    Map; a blank file leaves the Map as it is, which at startup is empty;
    there is no other outcome than these and the Map of the parsed
    entries. *)
Theorem load_is_total (path : string) (fault : bool) (disk : gmap string string)
    (files : jsMap) :
  (disk !! path = None -> loadFilesDataFromFile path fault disk files = [])
  /\ (forall data, disk !! path = Some data -> fault = false ->
        trim data = EmptyString ->
        loadFilesDataFromFile path fault disk files = files
        /\ loadFilesDataFromFile path fault disk [] = [])
  /\ (forall data, disk !! path = Some data ->
        trim data <> EmptyString -> JSON_parse data = None ->
        loadFilesDataFromFile path fault disk files = [])
  /\ (loadFilesDataFromFile path fault disk files = []
      \/ loadFilesDataFromFile path fault disk files = files
      \/ exists data entries,
           disk !! path = Some data /\ JSON_parse data = Some entries
           /\ Map_new entries = Some (loadFilesDataFromFile path fault disk files)).
Proof.
  unfold loadFilesDataFromFile, fs_readFile.
  destruct (disk !! path) as [data|] eqn:Hfile.
  2:{ repeat split; auto; discriminate. }
  split; [discriminate|]. split; [|split].
  - intros data' [= <-] -> Hblank. rewrite Hblank. auto.
  - intros data' [= <-] Hblank Hparse. destruct fault; [reflexivity|].
    apply String.eqb_neq in Hblank. now rewrite Hblank, Hparse.
  - destruct fault; [now left|].
    destruct (trim data =? "")%string; [right; now left|].
    destruct (JSON_parse data) as [entries|] eqn:Hparse; [|now left].
    destruct (Map_new entries) as [m|] eqn:Hmap; [|now left].
    right. right. exists data, entries. auto.
Qed.

Lemma load_is_total_witness :
  let disk : gmap string string := {[ DATA_FILE_PATH := "[[1,2" ]} in
  loadFilesDataFromFile IMAGE_FILE_PATH false disk [] = []
  /\ loadFilesDataFromFile DATA_FILE_PATH false disk [] = [].
Proof.
  intros disk.
  destruct (load_is_total IMAGE_FILE_PATH false disk []) as (Habsent & _).
  destruct (load_is_total DATA_FILE_PATH false disk []) as (_ & _ & Hbad & _).
  split.
  - apply Habsent. vm_compute. reflexivity.
  - apply (Hbad "[[1,2"); vm_compute; [reflexivity | discriminate | reflexivity].
Defined.

(** ** Keys and ids *)

Lemma Index_get_In_entry (m : Index) k md : Index_get m k = Some md -> In (k, md) m.
Proof.
  unfold Index_get. induction m as [|[k' v'] m IH]; simpl; [discriminate|].
  destruct (String.eqb_spec k' k) as [->|Hne]; [intros [= ->]; now left | auto].
Qed.

Lemma Map_keys_set (m : Index) k v :
  Map_keys (Index_set m k v) = Map_keys m
  \/ (~ In k (Map_keys m) /\ Map_keys (Index_set m k v) = Map_keys m ++ [k]).
Proof.
  unfold Index_set, Map_keys. induction m as [|[k' v'] m IH]; simpl.
  - right. auto.
  - destruct (String.eqb_spec k' k) as [->|Hne]; simpl; [now left|].
    destruct IH as [->|[Hk ->]]; [now left|]. right. split; [|reflexivity].
    intros [H|H]; auto.
Qed.

Lemma NoDup_keys_set (m : Index) k v :
  List.NoDup (Map_keys m) -> List.NoDup (Map_keys (Index_set m k v)).
Proof.
  intros H. destruct (Map_keys_set m k v) as [->|[Hk ->]]; [exact H|].
  apply List.NoDup_app; repeat split; auto.
  - constructor; [intros [] | constructor].
  - intros x Hx [<-|[]]. contradiction.
Qed.

Lemma In_Index_set (m : Index) k v e :
  In e (Index_set m k v) -> e = (k, v) \/ In e m.
Proof.
  unfold Index_set. induction m as [|[k' v'] m IH]; simpl.
  - intros [<-|[]]. now left.
  - destruct (String.eqb_spec k' k) as [->|Hne]; simpl.
    + intros [<-|H]; auto.
    + intros [<-|H]; auto. destruct (IH H); auto.
Qed.

Lemma In_Index_delete (m : Index) k e : In e (Index_delete m k) -> In e m.
Proof. unfold Index_delete, Map_delete. intros H. now apply List.filter_In in H. Qed.

Lemma NoDup_keys_delete (m : Index) k :
  List.NoDup (Map_keys m) -> List.NoDup (Map_keys (Index_delete m k)).
Proof.
  unfold Index_delete, Map_delete, Map_keys.
  induction m as [|[k' v'] m IH]; simpl; intros H; [constructor|].
  inversion H as [|? ? Hk Hm]; subst.
  destruct (negb (k' =? k)%string); simpl; auto.
  constructor; auto. intros Hin. apply Hk.
  apply List.in_map_iff in Hin. destruct Hin as (e & <- & He).
  apply List.in_map. now apply List.filter_In in He.
Qed.

Lemma well_keyed_set (m : Index) k v :
  well_keyed m -> id v = k -> well_keyed (Index_set m k v).
Proof.
  intros [Hkeys Hids] Hv. split; [now apply NoDup_keys_set|].
  apply List.Forall_forall. intros e He.
  destruct (In_Index_set m k v e He) as [->|Hin]; [exact Hv|].
  unfold keyed_by_id in Hids. rewrite List.Forall_forall in Hids. auto.
Qed.

Lemma well_keyed_delete (m : Index) k : well_keyed m -> well_keyed (Index_delete m k).
Proof.
  intros [Hkeys Hids]. split; [now apply NoDup_keys_delete|].
  apply List.Forall_forall. intros e He. apply In_Index_delete in He.
  unfold keyed_by_id in Hids. rewrite List.Forall_forall in Hids. auto.
Qed.

Lemma well_keyed_get (m : Index) k md : well_keyed m -> Index_get m k = Some md -> id md = k.
Proof.
  intros [_ Hids] Hget. apply Index_get_In_entry in Hget.
  unfold keyed_by_id in Hids. rewrite List.Forall_forall in Hids.
  apply (Hids (k, md) Hget).
Qed.

Lemma id_edited c e file b md : id (edited c e file b md) = id md.
Proof.
  unfold edited. cbn [id]. destruct (apply_body_frame c b
    match file with
    | Some f => Metadata (id md) (file_originalname f) (file_path f) (file_size f)
                  (uploadDate md) (editDate md)
    | None => md
    end) as (-> & _). now destruct file.
Qed.

(** A property of both Indexes that every request keeps holds along
    every run. *)
Lemma run_invariant (P : server -> Prop) :
  (forall e r s, P s -> P (fst (handle e r s))) ->
  forall events s, P s -> P (fst (run events s)).
Proof.
  intros Hstep. induction events as [|[e r] events IH]; intros s Hs; simpl; auto.
  pose proof (Hstep e r s Hs) as H1. destruct (handle e r s) as [s1 resp].
  specialize (IH s1 H1). now destruct (run events s1).
Qed.

Lemma handle_well_keyed e r s :
  (forall c, well_keyed (files_of c s)) ->
  forall c, well_keyed (files_of c (fst (handle e r s))).
Proof.
  intros Hs c0.
  assert (Hsplit : forall c (s' : server) (m : Index),
            files_of c s' = m -> well_keyed m ->
            (forall c', c' <> c -> files_of c' s' = files_of c' s) ->
            well_keyed (files_of c0 s')).
  { intros c s' m Hc Hm Hother.
    assert (Hdec : c0 = c \/ c0 <> c) by (destruct c, c0; auto; right; discriminate).
    destruct Hdec as [->|Hne]; [now rewrite Hc|].
    rewrite (Hother c0 Hne). apply Hs. }
  destruct r as [|c|c rid|c part|c rid part b|c rid|]; cbn [handle fst]; auto.
  - destruct (post_create_effect c e part s) as [[_ Hsame]|(f & _ & _ & _ & Hset & Hother)].
    + rewrite (same_indexes_files_of _ _ c0 Hsame). apply Hs.
    + eapply Hsplit; [exact Hset| |exact Hother].
      now apply well_keyed_set.
  - destruct (patch_edit_effect c e rid part b s)
      as [[_ Hsame]|(md & Hget & _ & Hset & Hother)].
    + rewrite (same_indexes_files_of _ _ c0 Hsame). apply Hs.
    + eapply Hsplit; [exact Hset| |exact Hother].
      apply well_keyed_set; [apply Hs|].
      rewrite id_edited. eapply well_keyed_get; eauto.
  - destruct (delete_delete_effect c e rid s) as [[_ ->]|(md & _ & _ & Hdel & Hother)]; auto.
    eapply Hsplit; [exact Hdel| |exact Hother].
    now apply well_keyed_delete.
Qed.

Lemma well_keyed_nil : well_keyed [].
Proof. split; constructor. Qed.

(** X1: on every run from the empty Indexes, whatever the requests, the
    ids of an Index are distinct and every record is stored under the id
    it carries. *)
Theorem run_well_keyed (events : list (env * request)) (d : gmap string string)
    (c : category) :
  List.NoDup (Map_keys (files_of c (fst (run events (initial d)))))
  /\ keyed_by_id (files_of c (fst (run events (initial d)))).
Proof.
  apply (run_invariant (fun s => forall c, well_keyed (files_of c s))).
  - intros e r s. apply handle_well_keyed.
  - intros []; apply well_keyed_nil.
Qed.

(** ** File names *)

Lemma NoDup_map_inj {A B : Type} (f : A -> B) (l : list A) a b :
  List.NoDup (List.map f l) -> In a l -> In b l -> f a = f b -> a = b.
Proof.
  induction l as [|x l IH]; simpl; [tauto|]. intros H Ha Hb Hf.
  inversion H as [|? ? Hx Hl]; subst.
  destruct Ha as [->|Ha], Hb as [->|Hb]; auto.
  - exfalso. apply Hx. rewrite Hf. now apply List.in_map.
  - exfalso. apply Hx. rewrite <- Hf. now apply List.in_map.
Qed.

Lemma In_values_set (m : Index) k v x :
  In x (Index_values (Index_set m k v)) -> x = v \/ In x (Index_values m).
Proof.
  unfold Index_values, Map_values. intros H.
  apply List.in_map_iff in H. destruct H as ([k' v'] & <- & He).
  destruct (In_Index_set m k v _ He) as [[= -> ->]|Hin]; [now left|].
  right. now apply (List.in_map snd) in Hin.
Qed.

(** Setting a record whose file name no record under another id has
    keeps the file names distinct. *)
Lemma unique_filenames_set (m : Index) k v :
  List.NoDup (Map_keys m) ->
  unique_filenames m ->
  (forall k' v', In (k', v') m -> filename v' = filename v -> k' = k) ->
  unique_filenames (Index_set m k v).
Proof.
  unfold unique_filenames, Index_values, Map_values, Map_keys, Index_set.
  induction m as [|[k1 v1] m IH]; simpl; intros Hkeys Hnames Hsame.
  - constructor; [intros [] | constructor].
  - inversion Hkeys as [|? ? Hk1 Hkm]; subst.
    inversion Hnames as [|? ? Hn1 Hnm]; subst.
    destruct (String.eqb_spec k1 k) as [->|Hne]; simpl.
    + constructor; [|exact Hnm]. intros Hin.
      apply List.in_map_iff in Hin. destruct Hin as (v' & Hf & Hv').
      apply List.in_map_iff in Hv'. destruct Hv' as ([k' v''] & <- & He).
      assert (k' = k) by (eapply Hsame; eauto). subst k'.
      apply Hk1. now apply (List.in_map fst) in He.
    + constructor.
      * intros Hin. apply List.in_map_iff in Hin. destruct Hin as (x & Hf & Hx).
        destruct (In_values_set m k v x Hx) as [->|Hx'].
        -- apply Hne. eapply Hsame; [left; reflexivity | now symmetry].
        -- apply Hn1. rewrite <- Hf. now apply List.in_map.
      * apply IH; auto. intros k' v' Hin Hf. eapply Hsame; eauto.
Qed.

Lemma unique_filenames_delete (m : Index) k :
  unique_filenames m -> unique_filenames (Index_delete m k).
Proof.
  unfold unique_filenames, Index_values, Map_values, Index_delete, Map_delete.
  induction m as [|[k' v'] m IH]; simpl; intros H; [constructor|].
  inversion H as [|? ? Hn Hm]; subst.
  destruct (negb (k' =? k)%string); simpl; auto.
  constructor; auto. intros Hin. apply Hn.
  apply List.in_map_iff in Hin. destruct Hin as (x & <- & Hx).
  apply List.in_map. apply List.in_map_iff in Hx. destruct Hx as (e & <- & He).
  apply List.in_map. now apply List.filter_In in He.
Qed.

Lemma find_none_forall {A : Type} (p : A -> bool) (l : list A) :
  List.find p l = None -> forall x, In x l -> p x = false.
Proof. intros H x Hx. exact (List.find_none p l H x Hx). Qed.

Lemma filename_edited c e file b md :
  truthy (newFilename b) = false ->
  filename (edited c e file b md)
  = match file with Some f => file_originalname f | None => filename md end.
Proof.
  intros Hb. unfold edited. cbn [filename].
  destruct (apply_body_frame c b
    match file with
    | Some f => Metadata (id md) (file_originalname f) (file_path f) (file_size f)
                  (uploadDate md) (editDate md)
    | None => md
    end) as (_ & _ & _ & ->). rewrite Hb. now destruct file.
Qed.

Lemma patch_edit_ok_no_conflict c e rid f b s :
  status (snd (patch_edit c e rid (Some f) b s)) = 200%N ->
  List.find (fun x => (filename x =? originalname f)%string && negb (id x =? rid)%string)
    (Index_values (files_of c s)) = None.
Proof.
  unfold patch_edit, upload_single, storage_filename. cbn [fst snd file_originalname].
  rewrite files_of_with_disk.
  destruct (Index_get (files_of c s) rid) as [md|]; [|discriminate].
  destruct (List.find _ _); [discriminate | reflexivity].
Qed.

(** One request that carries no [newFilename] keeps the file names of
    an Index distinct. *)
Lemma handle_unique_filenames e r s :
  keeps_filename r ->
  (forall c, well_keyed (files_of c s) /\ unique_filenames (files_of c s)) ->
  forall c, unique_filenames (files_of c (fst (handle e r s))).
Proof.
  intros Hr Hs c0.
  assert (Hsplit : forall c (s' : server) (m : Index),
            files_of c s' = m -> unique_filenames m ->
            (forall c', c' <> c -> files_of c' s' = files_of c' s) ->
            unique_filenames (files_of c0 s')).
  { intros c s' m Hc Hm Hother.
    assert (Hdec : c0 = c \/ c0 <> c) by (destruct c, c0; auto; right; discriminate).
    destruct Hdec as [->|Hne]; [now rewrite Hc|].
    rewrite (Hother c0 Hne). apply Hs. }
  destruct r as [|c|c rid|c part|c rid part b|c rid|]; cbn [handle fst];
    try apply Hs.
  - destruct (post_create_effect c e part s)
      as [[_ Hsame]|(f & _ & _ & Hfind & Hset & Hother)].
    + rewrite (same_indexes_files_of _ _ c0 Hsame). apply Hs.
    + eapply Hsplit; [exact Hset| |exact Hother].
      destruct (Hs c) as [[Hkeys _] Hnames].
      apply unique_filenames_set; auto.
      intros k' v' Hin Hf. exfalso.
      assert (Hv : In v' (Index_values (files_of c s))).
      { now apply (List.in_map snd) in Hin. }
      pose proof (find_none_forall _ _ Hfind v' Hv) as Hp.
      cbn beta in Hp. cbn [filename] in Hf.
      rewrite Hf, String.eqb_refl in Hp. discriminate.
  - destruct (patch_edit_effect c e rid part b s)
      as [[_ Hsame]|(md & Hget & H200 & Hset & Hother)].
    + rewrite (same_indexes_files_of _ _ c0 Hsame). apply Hs.
    + eapply Hsplit; [exact Hset| |exact Hother].
      destruct (Hs c) as [[Hkeys Hids] Hnames].
      apply unique_filenames_set; auto.
      intros k' v' Hin Hf. rewrite filename_edited in Hf by exact Hr.
      destruct part as [f|]; cbn [upload_single snd file_originalname] in Hf.
      * assert (Hv : In v' (Index_values (files_of c s))).
        { now apply (List.in_map snd) in Hin. }
        pose proof (find_none_forall _ _ (patch_edit_ok_no_conflict c e rid f b s H200) v' Hv)
          as Hp.
        cbn beta in Hp. rewrite Hf, String.eqb_refl in Hp.
        assert (Hid : (id v' =? rid)%string = true).
        { destruct (id v' =? rid)%string; [reflexivity | discriminate]. }
        apply String.eqb_eq in Hid.
        unfold keyed_by_id in Hids. rewrite List.Forall_forall in Hids.
        pose proof (Hids _ Hin) as Hk. cbn [fst snd] in Hk. congruence.
      * pose proof (Index_get_In_entry _ _ _ Hget) as Hmd.
        assert (Heq : (k', v') = (rid, md)).
        { apply (NoDup_map_inj (fun e => filename (snd e)) (files_of c s)); auto.
          unfold unique_filenames, Index_values, Map_values in Hnames.
          now rewrite List.map_map in Hnames. }
        now injection Heq.
  - destruct (delete_delete_effect c e rid s) as [[_ ->]|(md & _ & _ & Hdel & Hother)];
      [apply Hs|].
    eapply Hsplit; [exact Hdel| |exact Hother].
    apply unique_filenames_delete, Hs.
Qed.

(** X2: on a run from the empty Indexes in which no edit carries a
    [newFilename], no two records of a category have the same file
    name. *)
Theorem run_unique_filenames (events : list (env * request)) (d : gmap string string)
    (c : category) :
  List.Forall (fun ev => keeps_filename (snd ev)) events ->
  unique_filenames (files_of c (fst (run events (initial d)))).
Proof.
  intros Hkeep.
  assert (H : forall s,
    (forall c, well_keyed (files_of c s) /\ unique_filenames (files_of c s)) ->
    forall c, well_keyed (files_of c (fst (run events s)))
              /\ unique_filenames (files_of c (fst (run events s)))).
  { induction Hkeep as [|[e r] events Hr Hkeep IH]; intros s Hs; simpl; [exact Hs|].
    assert (H1 : forall c, well_keyed (files_of c (fst (handle e r s)))
                           /\ unique_filenames (files_of c (fst (handle e r s)))).
    { intros c1. split.
      - apply handle_well_keyed. intros c2. apply Hs.
      - now apply handle_unique_filenames. }
    destruct (handle e r s) as [s1 resp]. specialize (IH s1 H1).
    now destruct (run events s1). }
  apply H. intros []; (split; [apply well_keyed_nil | constructor]).
Qed.

Lemma run_unique_filenames_witness :
  unique_filenames
    (files_of Pdf
       (fst (run [(Sample.jan1, PostCreate Pdf (Some (Sample.pdf "a.pdf")));
                  (Sample.jan2, PostCreate Pdf (Some (Sample.pdf "a.pdf")));
                  (Sample.jan3, PatchEdit Pdf "id-1" (Some (Sample.pdf "b.pdf"))
                                  Sample.no_fields)]
               (initial ∅)))).
Proof.
  apply run_unique_filenames. repeat constructor.
Defined.

(** ** The snapshot after a request *)

Lemma load_after_update c e s files :
  save_fault e = false ->
  List.NoDup (Map_keys (files_of c s)) ->
  loadFilesDataFromFile (data_file c) false (disk (update_data c e s)) files
  = js_of_index (files_of c s).
Proof.
  intros Hsave Hkeys. unfold update_data, updateFilesDataToFile. cbn [disk with_disk].
  unfold savedFilesDataToFile, JSON_stringify, Array_from_entries, fs_writeFile.
  rewrite Hsave. now apply load_saved_text.
Qed.

(** A request that changes an Index ends with the save of that Index. *)
Lemma handle_success_saved e r s c :
  target r = Some c ->
  status (snd (handle e r s)) = 200%N ->
  exists s0, fst (handle e r s) = update_data c e s0.
Proof.
  destruct r as [|c'|c' rid|c' part|c' rid part b|c' rid|]; try discriminate;
    intros [= ->]; cbn [handle].
  - destruct (post_create_cases c e part s)
      as [[_ ->]|[(f & d & _ & _ & _ & ->)|(f & d & md & _ & _ & _ & _ & ->)]];
      try discriminate. intros _. eexists. reflexivity.
  - unfold patch_edit. destruct (upload_single (disk s) part) as [d file].
    destruct (Index_get _ rid) as [md|]; [|discriminate].
    destruct file as [file|].
    + destruct (List.find _ _); [discriminate|].
      destruct (fs_unlink _ _ _); [|discriminate]. intros _. eexists. reflexivity.
    + intros _. eexists. reflexivity.
  - unfold delete_delete. destruct (Index_get _ rid) as [md|]; [|discriminate].
    destruct (fs_unlink _ _ _); [|discriminate]. intros _. eexists. reflexivity.
Qed.

(** X3: on a run from the empty Indexes of requests whose edit bodies
    hold text fields only, after a create, an edit or a delete that
    succeeds and whose save is not refused, the snapshot file of the
    category loads as the Index the request has left: a restart finds
    the records of the last successful request.  (A body field that is
    not text is outside [edit_body]; a record that holds a number with
    no JSON text is not found again, see [every_snapshot_round_trips].) *)
Theorem saved_snapshot_reloads (events : list (env * request)) (d : gmap string string)
    (e : env) (r : request) (c : category) (files : jsMap) :
  target r = Some c ->
  save_fault e = false ->
  status (snd (handle e r (fst (run events (initial d))))) = 200%N ->
  loadFilesDataFromFile (data_file c) false
    (disk (fst (handle e r (fst (run events (initial d)))))) files
  = js_of_index (files_of c (fst (handle e r (fst (run events (initial d)))))).
Proof.
  intros Htarget Hsave H200.
  assert (Hkeyed : forall c', well_keyed (files_of c' (fst (run events (initial d))))).
  { apply (run_invariant (fun s => forall c, well_keyed (files_of c s))).
    - intros e0 r0 s0. apply handle_well_keyed.
    - intros []; apply well_keyed_nil. }
  pose proof (handle_well_keyed e r _ Hkeyed c) as [Hkeys _].
  destruct (handle_success_saved e r _ c Htarget H200) as (s0 & Hs0).
  rewrite Hs0 in *. rewrite files_of_update_data in *.
  now apply load_after_update.
Qed.

Lemma saved_snapshot_reloads_witness :
  loadFilesDataFromFile DATA_FILE_PATH false
    (disk (fst (handle Sample.jan2 (PostCreate Pdf (Some (Sample.pdf "b.pdf")))
                  (fst (run [(Sample.jan1, PostCreate Pdf (Some (Sample.pdf "a.pdf")))]
                          (initial ∅)))))) []
  = js_of_index
      (files_of Pdf
         (fst (handle Sample.jan2 (PostCreate Pdf (Some (Sample.pdf "b.pdf")))
                 (fst (run [(Sample.jan1, PostCreate Pdf (Some (Sample.pdf "a.pdf")))]
                         (initial ∅)))))).
Proof.
  apply (saved_snapshot_reloads
           [(Sample.jan1, PostCreate Pdf (Some (Sample.pdf "a.pdf")))] ∅ Sample.jan2
           (PostCreate Pdf (Some (Sample.pdf "b.pdf"))) Pdf []);
    vm_compute; reflexivity.
Defined.

(** ** Blobs on the disk *)

Lemma upload_path_not_data_file f c : upload_path f <> data_file c.
Proof.
  unfold upload_path, destination.
  destruct (mimetype f =? "application/pdf")%string, c; discriminate.
Qed.

Lemma filepath_edited c e file b md :
  filepath (edited c e file b md)
  = match file with Some f => file_path f | None => filepath md end.
Proof.
  unfold edited. cbn [filepath].
  destruct (apply_body_frame c b
    match file with
    | Some f => Metadata (id md) (file_originalname f) (file_path f) (file_size f)
                  (uploadDate md) (editDate md)
    | None => md
    end) as (_ & -> & _). now destruct file.
Qed.

(** A create that succeeds: the state it leaves. *)
Lemma post_create_ok c e f s :
  status (snd (post_create c e (Some f) s)) = 200%N ->
  fst (post_create c e (Some f) s)
  = update_data c e
      (with_files c (with_disk s (<[upload_path f := buffer f]> (disk s)))
         (Index_set (files_of c s) (uuid e)
            (Metadata (uuid e) (originalname f) (upload_path f)
               (N.of_nat (String.length (buffer f))) (now e) (now e)))).
Proof.
  destruct (post_create_cases c e (Some f) s)
    as [[? _]|[(f0 & d & _ & _ & _ & ->)|(f0 & d & md & [= <-] & -> & -> & _ & ->)]];
    try discriminate. reflexivity.
Qed.

(** An edit with a file that succeeds: the old blob was there to be
    unlinked, and the state the edit leaves. *)
Lemma patch_edit_file_ok c e rid f b s md :
  Index_get (files_of c s) rid = Some md ->
  status (snd (patch_edit c e rid (Some f) b s)) = 200%N ->
  is_Some (<[upload_path f := buffer f]> (disk s) !! filepath md)
  /\ fst (patch_edit c e rid (Some f) b s)
     = update_data c e
         (with_files c
            (with_disk s (base.delete (filepath md) (<[upload_path f := buffer f]> (disk s))))
            (Index_set (files_of c s) rid
               (edited c e
                  (Some (ReqFile (originalname f) (upload_path f)
                           (N.of_nat (String.length (buffer f))))) b md))).
Proof.
  intros Hget. unfold patch_edit, upload_single, storage_filename.
  cbn [fst snd file_originalname file_path file_size].
  rewrite files_of_with_disk, Hget.
  destruct (List.find _ _); [discriminate|].
  unfold fs_unlink. cbn [disk with_disk]. fold (upload_path f).
  destruct (<[upload_path f := buffer f]> (disk s) !! filepath md) as [x|] eqn:E;
    [|discriminate].
  destruct (unlink_fault e); [discriminate|]. intros _. split; [eauto|].
  cbn [fst]. now rewrite !files_of_with_disk.
Qed.

(** X4: the bytes of a file that was created are the bytes a fetch of
    its id returns, when the read is not refused. *)
Theorem fetch_after_create (c : category) (e e' : env) (f : upload) (s : server) :
  status (snd (post_create c e (Some f) s)) = 200%N ->
  read_fault e' = false ->
  get_fetch c e' (uuid e) (fst (post_create c e (Some f) s))
  = send (SendFile (content_type c) (buffer f)).
Proof.
  intros H200 Hread. rewrite (post_create_ok c e f s H200).
  unfold get_fetch, fs_readFile.
  rewrite files_of_update_data, files_of_with_files, Index_get_set_eq.
  cbn [filepath]. rewrite update_data_disk by apply upload_path_not_data_file.
  assert (Hdisk : forall m, disk (with_files c (with_disk s (<[upload_path f := buffer f]> (disk s))) m)
                            = <[upload_path f := buffer f]> (disk s)) by (now destruct c).
  rewrite Hdisk, lookup_insert_eq, Hread. reflexivity.
Qed.

Lemma fetch_after_create_witness :
  get_fetch Pdf Sample.jan2 "id-1"
    (fst (post_create Pdf Sample.jan1 (Some (Sample.pdf "a.pdf")) (initial ∅)))
  = send (SendFile "application/pdf" "%PDF-1.4 sample").
Proof.
  apply (fetch_after_create Pdf Sample.jan1 Sample.jan2 (Sample.pdf "a.pdf") (initial ∅));
    vm_compute; reflexivity.
Defined.

Lemma disk_with_files c s m : disk (with_files c s m) = disk s.
Proof. now destruct c. Qed.

(** An edit with a file succeeds when no record under another id has
    the name of the upload, the old blob is on the disk once the upload
    is stored, and the unlink is not refused. *)
Lemma patch_edit_file_succeeds c e rid f b s md :
  Index_get (files_of c s) rid = Some md ->
  List.find (fun x => (filename x =? originalname f)%string && negb (id x =? rid)%string)
    (Index_values (files_of c s)) = None ->
  is_Some (<[upload_path f := buffer f]> (disk s) !! filepath md) ->
  unlink_fault e = false ->
  status (snd (patch_edit c e rid (Some f) b s)) = 200%N.
Proof.
  intros Hget Hfind [x Hx] Hfault. unfold patch_edit, upload_single, storage_filename.
  cbn [fst snd file_originalname]. rewrite files_of_with_disk, Hget, Hfind.
  unfold fs_unlink. cbn [disk with_disk]. fold (upload_path f).
  now rewrite Hx, Hfault.
Qed.

(** X5: an edit that uploads a file under the path the record's blob is
    stored at, with a name no record under another id has and an unlink
    that is not refused, answers 200 and leaves the record without a
    blob: the upload has replaced the old file, and what the handler
    then unlinks as the old file is the upload.  A fetch of the id in
    the state the edit leaves answers 500, whatever its environment. *)
Theorem reupload_loses_blob (c : category) (e e' : env) (rid : string) (f : upload)
    (b : edit_body) (s : server) (md : metadata) :
  Index_get (files_of c s) rid = Some md ->
  filepath md = upload_path f ->
  List.find (fun x => (filename x =? originalname f)%string && negb (id x =? rid)%string)
    (Index_values (files_of c s)) = None ->
  unlink_fault e = false ->
  let s' := fst (patch_edit c e rid (Some f) b s) in
  status (snd (patch_edit c e rid (Some f) b s)) = 200%N
  /\ (exists md', Index_get (files_of c s') rid = Some md'
                  /\ filepath md' = upload_path f
                  /\ disk s' !! filepath md' = None)
  /\ status (get_fetch c e' rid s') = 500%N.
Proof.
  intros Hget Hpath Hfind Hfault s'.
  assert (H200 : status (snd (patch_edit c e rid (Some f) b s)) = 200%N).
  { apply (patch_edit_file_succeeds c e rid f b s md); auto.
    rewrite Hpath, lookup_insert_eq. eauto. }
  split; [exact H200|].
  destruct (patch_edit_file_ok c e rid f b s md Hget H200) as [_ Hs'].
  fold s' in Hs'.
  assert (Hrec : Index_get (files_of c s') rid
                 = Some (edited c e
                           (Some (ReqFile (originalname f) (upload_path f)
                                    (N.of_nat (String.length (buffer f))))) b md)).
  { rewrite Hs', files_of_update_data, files_of_with_files. apply Index_get_set_eq. }
  assert (Hgone : disk s' !! upload_path f = None).
  { rewrite Hs', update_data_disk by apply upload_path_not_data_file.
    rewrite disk_with_files. cbn [disk with_disk]. rewrite Hpath. apply lookup_delete_eq. }
  split.
  - eexists. split; [exact Hrec|]. rewrite filepath_edited. cbn [file_path]. auto.
  - unfold get_fetch, fs_readFile. rewrite Hrec, filepath_edited. cbn [file_path].
    now rewrite Hgone.
Qed.

Lemma reupload_loses_blob_witness :
  let s' := fst (patch_edit Pdf Sample.jan2 "id-1" (Some (Sample.pdf "a.pdf"))
                   Sample.no_fields Sample.one_pdf) in
  status (snd (patch_edit Pdf Sample.jan2 "id-1" (Some (Sample.pdf "a.pdf"))
                 Sample.no_fields Sample.one_pdf)) = 200%N
  /\ (exists md', Index_get (files_of Pdf s') "id-1" = Some md'
                  /\ filepath md' = "uploads/pdfs/a.pdf"
                  /\ disk s' !! filepath md' = None)
  /\ status (get_fetch Pdf Sample.jan3 "id-1" s') = 500%N.
Proof.
  apply (reupload_loses_blob Pdf Sample.jan2 Sample.jan3 "id-1" (Sample.pdf "a.pdf")
           Sample.no_fields Sample.one_pdf
           (Metadata "id-1" "a.pdf" "uploads/pdfs/a.pdf" 15
              "2024-01-01T00:00:00.000Z" "2024-01-01T00:00:00.000Z"));
    vm_compute; reflexivity.
Defined.

(** X6: a create that is refused because the file name is taken has
    stored the upload all the same, over the blob that was at its path:
    a fetch of a record whose blob is stored there returns the bytes of
    the refused upload. *)
Theorem refused_create_overwrites_blob (c : category) (e e' : env) (f : upload)
    (s : server) (rid : string) (md : metadata) :
  status (snd (post_create c e (Some f) s)) = 409%N ->
  let s' := fst (post_create c e (Some f) s) in
  disk s' = <[upload_path f := buffer f]> (disk s)
  /\ (Index_get (files_of c s) rid = Some md ->
      filepath md = upload_path f ->
      read_fault e' = false ->
      get_fetch c e' rid s' = send (SendFile (content_type c) (buffer f))).
Proof.
  intros H409 s'. unfold s'.
  destruct (post_create_cases c e (Some f) s)
    as [[? _]|[(f0 & d & [= <-] & -> & _ & E)|(f0 & d & md0 & _ & _ & _ & _ & E)]];
    try discriminate.
  2:{ rewrite E in H409. discriminate. }
  rewrite E. cbn [fst disk with_disk]. split; [reflexivity|].
  intros Hget Hpath Hread. unfold get_fetch, fs_readFile.
  rewrite files_of_with_disk, Hget. cbn [disk with_disk].
  now rewrite Hpath, lookup_insert_eq, Hread.
Qed.

Lemma refused_create_overwrites_blob_witness :
  let f := Upload "a.pdf" "application/pdf" "other bytes" in
  let s' := fst (post_create Pdf Sample.jan2 (Some f) Sample.one_pdf) in
  disk s' = <["uploads/pdfs/a.pdf" := "other bytes"]> (disk Sample.one_pdf)
  /\ get_fetch Pdf Sample.jan3 "id-1" s' = send (SendFile "application/pdf" "other bytes").
Proof.
  intros f s'.
  destruct (refused_create_overwrites_blob Pdf Sample.jan2 Sample.jan3 f Sample.one_pdf "id-1"
              (Metadata "id-1" "a.pdf" "uploads/pdfs/a.pdf" 15
                 "2024-01-01T00:00:00.000Z" "2024-01-01T00:00:00.000Z")) as [H1 H2].
  - vm_compute; reflexivity.
  - split; [exact H1 | apply H2; vm_compute; reflexivity].
Defined.

(** X7: an edit that succeeds with a file stored at another path than
    the record's blob removes the old blob, and a fetch of the id then
    returns the bytes of the new file. *)
Theorem edit_replaces_blob (c : category) (e e' : env) (rid : string) (f : upload)
    (b : edit_body) (s : server) (md : metadata) :
  Index_get (files_of c s) rid = Some md ->
  filepath md <> upload_path f ->
  filepath md <> data_file c ->
  status (snd (patch_edit c e rid (Some f) b s)) = 200%N ->
  let s' := fst (patch_edit c e rid (Some f) b s) in
  disk s' !! filepath md = None
  /\ (read_fault e' = false ->
      get_fetch c e' rid s' = send (SendFile (content_type c) (buffer f))).
Proof.
  intros Hget Hpath Hdata H200 s'.
  destruct (patch_edit_file_ok c e rid f b s md Hget H200) as [_ Hs'].
  fold s' in Hs'. rewrite Hs'. split.
  - rewrite update_data_disk by exact Hdata.
    rewrite disk_with_files. cbn [disk with_disk]. apply lookup_delete_eq.
  - intros Hread. unfold get_fetch, fs_readFile.
    rewrite files_of_update_data, files_of_with_files, Index_get_set_eq, filepath_edited.
    cbn [file_path]. rewrite update_data_disk by apply upload_path_not_data_file.
    rewrite disk_with_files. cbn [disk with_disk].
    rewrite lookup_delete_ne by exact Hpath.
    now rewrite lookup_insert_eq, Hread.
Qed.

Lemma edit_replaces_blob_witness :
  let f := Upload "b.pdf" "application/pdf" "other bytes" in
  let s' := fst (patch_edit Pdf Sample.jan2 "id-1" (Some f) Sample.no_fields Sample.one_pdf) in
  disk s' !! "uploads/pdfs/a.pdf" = None
  /\ get_fetch Pdf Sample.jan3 "id-1" s' = send (SendFile "application/pdf" "other bytes").
Proof.
  intros f s'.
  destruct (edit_replaces_blob Pdf Sample.jan2 Sample.jan3 "id-1" f Sample.no_fields
              Sample.one_pdf
              (Metadata "id-1" "a.pdf" "uploads/pdfs/a.pdf" 15
                 "2024-01-01T00:00:00.000Z" "2024-01-01T00:00:00.000Z")) as [H1 H2];
    try (vm_compute; reflexivity); try (vm_compute; discriminate).
  split; [exact H1 | apply H2; reflexivity].
Defined.

(** X8: a delete that succeeds removes the record from the Index and its
    blob from the disk, and no other file than the blob and the
    snapshot changes. *)
Theorem delete_removes_blob (c : category) (e : env) (rid : string) (s : server)
    (md : metadata) :
  Index_get (files_of c s) rid = Some md ->
  filepath md <> data_file c ->
  status (snd (delete_delete c e rid s)) = 200%N ->
  let s' := fst (delete_delete c e rid s) in
  Index_get (files_of c s') rid = None
  /\ disk s' !! filepath md = None
  /\ forall p, p <> filepath md -> p <> data_file c -> disk s' !! p = disk s !! p.
Proof.
  intros Hget Hdata. unfold delete_delete, fs_unlink. rewrite Hget. cbn zeta.
  destruct (disk s !! filepath md) as [x|]; [|discriminate].
  destruct (unlink_fault e); [discriminate|]. intros _. cbn [fst].
  rewrite files_of_update_data, files_of_with_files, files_of_with_disk.
  split; [apply Index_get_delete_eq|]. split.
  - rewrite update_data_disk by exact Hdata.
    rewrite disk_with_files. cbn [disk with_disk]. apply lookup_delete_eq.
  - intros p Hp Hpd. rewrite update_data_disk by exact Hpd.
    rewrite disk_with_files. cbn [disk with_disk]. now apply lookup_delete_ne.
Qed.

Lemma delete_removes_blob_witness :
  let s' := fst (delete_delete Pdf Sample.jan2 "id-1" Sample.one_pdf) in
  Index_get (files_of Pdf s') "id-1" = None
  /\ disk s' !! "uploads/pdfs/a.pdf" = None
  /\ forall p, p <> "uploads/pdfs/a.pdf" -> p <> data_file Pdf ->
               disk s' !! p = disk Sample.one_pdf !! p.
Proof.
  apply (delete_removes_blob Pdf Sample.jan2 "id-1" Sample.one_pdf
           (Metadata "id-1" "a.pdf" "uploads/pdfs/a.pdf" 15
              "2024-01-01T00:00:00.000Z" "2024-01-01T00:00:00.000Z"));
    try (vm_compute; reflexivity). vm_compute; discriminate.
Defined.

(** X9: a request that is not answered 200 leaves both Indexes as they
    were, whatever the reason of the failure. *)
Theorem failure_keeps_indexes (e : env) (r : request) (s : server) :
  status (snd (handle e r s)) <> 200%N ->
  same_indexes s (fst (handle e r s)).
Proof.
  intros Hfail.
  destruct r as [|c|c rid|c part|c rid part b|c rid|]; cbn [handle fst snd] in *;
    try (split; reflexivity).
  - destruct (post_create_effect c e part s) as [[_ Hsame]|(f & _ & H200 & _)];
      [exact Hsame | contradiction].
  - destruct (patch_edit_effect c e rid part b s) as [[_ Hsame]|(md & _ & H200 & _)];
      [exact Hsame | contradiction].
  - destruct (delete_delete_effect c e rid s) as [[_ ->]|(md & _ & H200 & _)];
      [split; reflexivity | contradiction].
Qed.

Lemma failure_keeps_indexes_witness :
  same_indexes Sample.one_pdf
    (fst (handle Sample.jan2_unlink_refused (DeleteDelete Pdf "id-1") Sample.one_pdf)).
Proof.
  apply (failure_keeps_indexes Sample.jan2_unlink_refused (DeleteDelete Pdf "id-1")
           Sample.one_pdf).
  vm_compute. discriminate.
Defined.


(** ** Other records *)

Lemma Index_get_set_ne (m : Index) k k' v :
  k' <> k -> Index_get (Index_set m k' v) k = Index_get m k.
Proof.
  intros Hne. unfold Index_get, Index_set.
  induction m as [|[k1 v1] m IH]; simpl.
  - now destruct (String.eqb_spec k' k).
  - destruct (String.eqb_spec k1 k') as [->|Hk1]; simpl.
    + now destruct (String.eqb_spec k' k).
    + now rewrite IH.
Qed.

Lemma Index_get_delete_ne (m : Index) k k' :
  k' <> k -> Index_get (Index_delete m k') k = Index_get m k.
Proof.
  intros Hne. unfold Index_get, Index_delete, Map_delete.
  induction m as [|[k1 v1] m IH]; simpl; [reflexivity|].
  destruct (String.eqb_spec k1 k') as [->|Hk1]; simpl.
  - now destruct (String.eqb_spec k' k).
  - now rewrite IH.
Qed.

(** X11: a request changes at most the record under one id of one
    Index, the id it creates, edits or deletes: every other id of that
    Index, and every id of the other Index, is mapped as before. *)
Theorem other_records_untouched (e : env) (r : request) (s : server) (c : category)
    (k : string) :
  target r <> Some c \/ target_key e r <> Some k ->
  Index_get (files_of c (fst (handle e r s))) k = Index_get (files_of c s) k.
Proof.
  intros Hother.
  assert (Hcat : forall c', Some c' <> Some c \/ Some c' = Some c /\ c' = c).
  { intros c'. destruct c, c'; auto; left; discriminate. }
  destruct r as [|c'|c' rid|c' part|c' rid part b|c' rid|]; cbn [handle fst]; auto;
    cbn [target target_key] in Hother.
  - destruct (post_create_effect c' e part s)
      as [[_ Hsame]|(f & _ & _ & _ & Hset & Hframe)].
    + now rewrite (same_indexes_files_of _ _ c Hsame).
    + destruct (Hcat c') as [Hne|[_ ->]].
      * rewrite Hframe; [reflexivity | congruence].
      * rewrite Hset. apply Index_get_set_ne. destruct Hother; congruence.
  - destruct (patch_edit_effect c' e rid part b s)
      as [[_ Hsame]|(md & _ & _ & Hset & Hframe)].
    + now rewrite (same_indexes_files_of _ _ c Hsame).
    + destruct (Hcat c') as [Hne|[_ ->]].
      * rewrite Hframe; [reflexivity | congruence].
      * rewrite Hset. apply Index_get_set_ne. destruct Hother; congruence.
  - destruct (delete_delete_effect c' e rid s)
      as [[_ ->]|(md & _ & _ & Hdel & Hframe)]; [reflexivity|].
    destruct (Hcat c') as [Hne|[_ ->]].
    + rewrite Hframe; [reflexivity | congruence].
    + rewrite Hdel. apply Index_get_delete_ne. destruct Hother; congruence.
Qed.

Lemma other_records_untouched_witness :
  Index_get (files_of Pdf (fst (handle Sample.jan2 (PostCreate Pdf (Some (Sample.pdf "b.pdf")))
                                 Sample.one_pdf))) "id-1"
  = Index_get (files_of Pdf Sample.one_pdf) "id-1".
Proof.
  apply (other_records_untouched Sample.jan2 (PostCreate Pdf (Some (Sample.pdf "b.pdf")))
           Sample.one_pdf Pdf "id-1").
  right. vm_compute. discriminate.
Defined.

Lemma Map_get_none_fresh (m : Index) k :
  Index_has m k = false -> List.Forall (fun e => (fst e =? k)%string = false) m.
Proof.
  rewrite Index_has_false. unfold Index_get.
  induction m as [|[k' v'] m IH]; simpl; [constructor|].
  destruct (k' =? k)%string eqn:E; [discriminate|]. constructor; auto.
Qed.

(** X12: a created record whose id is new goes to the end of the list the
    listing request returns; the records that were there keep their
    order. *)
Theorem create_appends (c : category) (e : env) (f : upload) (s : server) :
  Index_has (files_of c s) (uuid e) = false ->
  status (snd (post_create c e (Some f) s)) = 200%N ->
  get_fetch_all c (fst (post_create c e (Some f) s))
  = send (SendList
            (Index_values (files_of c s)
             ++ [Metadata (uuid e) (originalname f) (upload_path f)
                   (N.of_nat (String.length (buffer f))) (now e) (now e)])).
Proof.
  intros Hfresh H200. rewrite (post_create_ok c e f s H200).
  unfold get_fetch_all. rewrite files_of_update_data, files_of_with_files.
  unfold Index_set. rewrite (Map_set_fresh String.eqb _ _ _ (Map_get_none_fresh _ _ Hfresh)).
  unfold Index_values, Map_values. now rewrite List.map_app.
Qed.

Lemma create_appends_witness :
  get_fetch_all Pdf (fst (post_create Pdf Sample.jan2 (Some (Sample.pdf "b.pdf"))
                            Sample.one_pdf))
  = send (SendList
            (Index_values (files_of Pdf Sample.one_pdf)
             ++ [Metadata "id-2" "b.pdf" "uploads/pdfs/b.pdf" 15
                   "2024-01-02T00:00:00.000Z" "2024-01-02T00:00:00.000Z"])).
Proof.
  apply (create_appends Pdf Sample.jan2 (Sample.pdf "b.pdf") Sample.one_pdf);
    vm_compute; reflexivity.
Defined.

(** ** A save that fails *)

(** X13: whether the save of the snapshot fails does not show in the
    answer of a request nor in the Indexes it leaves; the disks differ
    at most in the snapshot files. *)
Theorem save_failure_is_silent (e : env) (fault : bool) (r : request) (s : server) :
  snd (handle (with_save_fault e fault) r s) = snd (handle e r s)
  /\ same_indexes (fst (handle e r s)) (fst (handle (with_save_fault e fault) r s))
  /\ forall p, p <> DATA_FILE_PATH -> p <> IMAGE_FILE_PATH ->
       disk (fst (handle (with_save_fault e fault) r s)) !! p
       = disk (fst (handle e r s)) !! p.
Proof.
  assert (Hdata : forall c p, p <> DATA_FILE_PATH -> p <> IMAGE_FILE_PATH -> p <> data_file c).
  { intros [] p H1 H2; assumption. }
  destruct r as [|c|c rid|c part|c rid part b|c rid|]; cbn [handle fst snd];
    try (repeat split; reflexivity).
  - unfold post_create. destruct (upload_single (disk s) part) as [d [file|]];
      [|repeat split; reflexivity].
    destruct (List.find _ _); [repeat split; reflexivity|].
    cbn [fst snd uuid now with_save_fault]. repeat split.
    intros p H1 H2. now rewrite !update_data_disk by (apply Hdata; assumption).
  - unfold patch_edit. destruct (upload_single (disk s) part) as [d file].
    destruct (Index_get _ rid) as [md|]; [|repeat split; reflexivity].
    destruct file as [file|].
    + destruct (List.find _ _); [repeat split; reflexivity|].
      cbn [unlink_fault with_save_fault].
      destruct (fs_unlink _ _ _); [|repeat split; reflexivity].
      cbn [fst snd uuid now with_save_fault]. repeat split.
      intros p H1 H2. now rewrite !update_data_disk by (apply Hdata; assumption).
    + cbn [fst snd uuid now with_save_fault]. repeat split.
      intros p H1 H2. now rewrite !update_data_disk by (apply Hdata; assumption).
  - unfold delete_delete. destruct (Index_get _ rid) as [md|]; [|repeat split; reflexivity].
    cbn [unlink_fault with_save_fault].
    destruct (fs_unlink _ _ _); [|repeat split; reflexivity].
    cbn [fst snd]. repeat split.
    intros p H1 H2. now rewrite !update_data_disk by (apply Hdata; assumption).
Qed.

(** ** Renames and shared blobs *)

(** X14: an edit without a file that brings as [newFilename] the file
    name of another record succeeds, and the two records then have the
    same file name: the rename is not checked against the Index. *)
Theorem rename_is_unchecked (c : category) (e : env) (rid other : string) (b : edit_body)
    (s : server) (md md2 : metadata) :
  Index_get (files_of c s) rid = Some md ->
  Index_get (files_of c s) other = Some md2 ->
  other <> rid ->
  newFilename b = Some (filename md2) ->
  filename md2 <> EmptyString ->
  let s' := fst (patch_edit c e rid None b s) in
  status (snd (patch_edit c e rid None b s)) = 200%N
  /\ Index_get (files_of c s') other = Some md2
  /\ exists md', Index_get (files_of c s') rid = Some md' /\ filename md' = filename md2.
Proof.
  intros Hget Hother Hne Hname Hnonempty s'. unfold s'.
  rewrite (patch_edit_no_file c e rid b s md Hget). cbn [fst snd].
  rewrite files_of_update_data, files_of_with_files.
  split; [reflexivity|]. split.
  - rewrite Index_get_set_ne by congruence. exact Hother.
  - eexists. split; [apply Index_get_set_eq|]. cbn [filename].
    destruct (apply_body_frame c b md) as (_ & _ & _ & ->).
    unfold truthy. rewrite Hname. cbn [field].
    now destruct (String.eqb_spec (filename md2) "").
Qed.

Lemma rename_is_unchecked_witness :
  let s := fst (post_create Pdf Sample.jan2 (Some (Sample.pdf "b.pdf")) Sample.one_pdf) in
  let s' := fst (patch_edit Pdf Sample.jan3 "id-2" None (Sample.rename_to "a.pdf") s) in
  status (snd (patch_edit Pdf Sample.jan3 "id-2" None (Sample.rename_to "a.pdf") s)) = 200%N
  /\ Index_get (files_of Pdf s') "id-1"
     = Some (Metadata "id-1" "a.pdf" "uploads/pdfs/a.pdf" 15
               "2024-01-01T00:00:00.000Z" "2024-01-01T00:00:00.000Z")
  /\ exists md', Index_get (files_of Pdf s') "id-2" = Some md' /\ filename md' = "a.pdf".
Proof.
  intros s s'.
  apply (rename_is_unchecked Pdf Sample.jan3 "id-2" "id-1" (Sample.rename_to "a.pdf") s
           (Metadata "id-2" "b.pdf" "uploads/pdfs/b.pdf" 15
              "2024-01-02T00:00:00.000Z" "2024-01-02T00:00:00.000Z")
           (Metadata "id-1" "a.pdf" "uploads/pdfs/a.pdf" 15
              "2024-01-01T00:00:00.000Z" "2024-01-01T00:00:00.000Z"));
    try (vm_compute; reflexivity); vm_compute; discriminate.
Defined.

(** A delete that succeeds: the state it leaves. *)
Lemma delete_delete_ok c e rid s md :
  Index_get (files_of c s) rid = Some md ->
  status (snd (delete_delete c e rid s)) = 200%N ->
  fst (delete_delete c e rid s)
  = update_data c e
      (with_files c (with_disk s (base.delete (filepath md) (disk s)))
         (Index_delete (files_of c s) rid)).
Proof.
  intros Hget. unfold delete_delete, fs_unlink. rewrite Hget. cbn zeta.
  destruct (disk s !! filepath md); [|discriminate].
  destruct (unlink_fault e); [discriminate|]. intros _. cbn [fst].
  now rewrite files_of_with_disk.
Qed.

(** X15: the directory of a blob follows the mimetype of the upload,
    not the route: the same upload created through both routes gives two
    records, one per Index, with one blob.  When the two creates and
    then the delete of the second record have succeeded, the first
    record is still in its Index with the same [filepath], and a fetch
    of it in the state the delete leaves answers 500, whatever its
    environment. *)
Theorem shared_blob_is_lost (c c' : category) (e1 e2 e3 e' : env) (f : upload) (s : server) :
  c <> c' ->
  let s1 := fst (post_create c e1 (Some f) s) in
  let s2 := fst (post_create c' e2 (Some f) s1) in
  let s3 := fst (delete_delete c' e3 (uuid e2) s2) in
  status (snd (post_create c e1 (Some f) s)) = 200%N ->
  status (snd (post_create c' e2 (Some f) s1)) = 200%N ->
  status (snd (delete_delete c' e3 (uuid e2) s2)) = 200%N ->
  (exists md, Index_get (files_of c s3) (uuid e1) = Some md /\ filepath md = upload_path f)
  /\ status (get_fetch c e' (uuid e1) s3) = 500%N.
Proof.
  intros Hcat s1 s2 s3 H1 H2 H3.
  assert (Hs1 : Index_get (files_of c s1) (uuid e1)
                = Some (Metadata (uuid e1) (originalname f) (upload_path f)
                          (N.of_nat (String.length (buffer f))) (now e1) (now e1))).
  { unfold s1. rewrite (post_create_ok c e1 f s H1).
    rewrite files_of_update_data, files_of_with_files. apply Index_get_set_eq. }
  assert (Hs2 : Index_get (files_of c' s2) (uuid e2)
                = Some (Metadata (uuid e2) (originalname f) (upload_path f)
                          (N.of_nat (String.length (buffer f))) (now e2) (now e2))).
  { unfold s2. rewrite (post_create_ok c' e2 f s1 H2).
    rewrite files_of_update_data, files_of_with_files. apply Index_get_set_eq. }
  assert (Hc2 : files_of c s2 = files_of c s1).
  { unfold s2. rewrite (post_create_ok c' e2 f s1 H2).
    rewrite files_of_update_data, files_of_with_files_ne by exact Hcat.
    apply files_of_with_disk. }
  pose proof (delete_delete_ok c' e3 (uuid e2) s2 _ Hs2 H3) as Hs3. fold s3 in Hs3.
  cbn [filepath] in Hs3.
  assert (Hc3 : files_of c s3 = files_of c s1).
  { rewrite Hs3, files_of_update_data, files_of_with_files_ne by exact Hcat.
    now rewrite files_of_with_disk. }
  assert (Hgone : disk s3 !! upload_path f = None).
  { rewrite Hs3, update_data_disk by apply upload_path_not_data_file.
    rewrite disk_with_files. cbn [disk with_disk]. apply lookup_delete_eq. }
  split.
  - rewrite Hc3. eexists. split; [exact Hs1 | reflexivity].
  - unfold get_fetch, fs_readFile. rewrite Hc3, Hs1. cbn [filepath]. now rewrite Hgone.
Qed.

Lemma shared_blob_is_lost_witness :
  let s1 := fst (post_create Pdf Sample.jan1 (Some (Sample.pdf "a.pdf")) (initial ∅)) in
  let s2 := fst (post_create Image Sample.jan2 (Some (Sample.pdf "a.pdf")) s1) in
  let s3 := fst (delete_delete Image Sample.jan3 "id-2" s2) in
  (exists md, Index_get (files_of Pdf s3) "id-1" = Some md
              /\ filepath md = "uploads/pdfs/a.pdf")
  /\ status (get_fetch Pdf Sample.jan3 "id-1" s3) = 500%N.
Proof.
  apply (shared_blob_is_lost Pdf Image Sample.jan1 Sample.jan2 Sample.jan3 Sample.jan3
           (Sample.pdf "a.pdf") (initial ∅));
    try (vm_compute; reflexivity). discriminate.
Defined.

(** ** Conflicts *)

Lemma post_create_conflict_iff c e f s :
  status (snd (post_create c e (Some f) s)) = 409%N
  <-> exists md, In md (Index_values (files_of c s)) /\ filename md = originalname f.
Proof.
  unfold post_create, upload_single, storage_filename. cbn [file_originalname].
  rewrite files_of_with_disk.
  destruct (List.find _ _) as [x|] eqn:E; cbn [snd].
  - split; [intros _ | reflexivity]. apply List.find_some in E.
    exists x. split; [apply E|]. now apply String.eqb_eq.
  - split; [discriminate|]. intros (md & Hin & Hname). exfalso.
    pose proof (List.find_none _ _ E md Hin) as Hp. cbn beta in Hp.
    rewrite Hname, String.eqb_refl in Hp. discriminate.
Qed.

(** X16: a create is refused with 409 exactly when a record of the
    Index has the file name of the upload, and an edit with a file of an
    id that is there exactly when a record under another id has it. *)
Theorem conflict_iff_name_taken (c : category) (e : env) (rid : string) (f : upload)
    (b : edit_body) (s : server) :
  (status (snd (post_create c e (Some f) s)) = 409%N
   <-> exists md, In md (Index_values (files_of c s)) /\ filename md = originalname f)
  /\ (Index_has (files_of c s) rid = true ->
      (status (snd (patch_edit c e rid (Some f) b s)) = 409%N
       <-> exists md, In md (Index_values (files_of c s))
                      /\ filename md = originalname f /\ id md <> rid)).
Proof.
  split; [apply post_create_conflict_iff|].
  intros Hhas. unfold patch_edit, upload_single, storage_filename.
  cbn [file_originalname fst snd]. rewrite files_of_with_disk.
  unfold Index_has, Map_has in Hhas. fold (Index_get (files_of c s) rid) in Hhas.
  destruct (Index_get (files_of c s) rid) as [md0|]; [|discriminate].
  destruct (List.find _ _) as [x|] eqn:E; cbn [snd].
  - split; [intros _ | reflexivity]. apply List.find_some in E.
    destruct E as [Hin Hp]. apply andb_prop in Hp. destruct Hp as [Hn Hi].
    exists x. split; [exact Hin|]. split; [now apply String.eqb_eq|].
    apply String.eqb_neq. now destruct (id x =? rid)%string.
  - split.
    + destruct (fs_unlink _ _ _); discriminate.
    + intros (md & Hin & Hname & Hid). exfalso.
      pose proof (List.find_none _ _ E md Hin) as Hp. cbn beta in Hp.
      rewrite Hname, String.eqb_refl in Hp.
      apply String.eqb_neq in Hid. rewrite Hid in Hp. discriminate.
Qed.

Lemma conflict_iff_name_taken_witness :
  status (snd (patch_edit Pdf Sample.jan2 "id-1" (Some (Sample.pdf "a.pdf"))
                 Sample.no_fields Sample.one_pdf)) = 409%N
  <-> exists md, In md (Index_values (files_of Pdf Sample.one_pdf))
                 /\ filename md = "a.pdf" /\ id md <> "id-1".
Proof.
  apply (conflict_iff_name_taken Pdf Sample.jan2 "id-1" (Sample.pdf "a.pdf")
           Sample.no_fields Sample.one_pdf).
  vm_compute. reflexivity.
Defined.

(** X17: after an edit without a file has renamed a record, a create of
    a file of the new name is refused with 409. *)
Theorem rename_takes_name (c : category) (e e2 : env) (rid : string) (b : edit_body)
    (f : upload) (s : server) (md : metadata) :
  Index_get (files_of c s) rid = Some md ->
  truthy (newFilename b) = true ->
  originalname f = field (newFilename b) ->
  status (snd (post_create c e2 (Some f) (fst (patch_edit c e rid None b s)))) = 409%N.
Proof.
  intros Hget Hname Hf.
  apply post_create_conflict_iff.
  rewrite (patch_edit_no_file c e rid b s md Hget). cbn [fst].
  rewrite files_of_update_data, files_of_with_files.
  eexists. split; [eapply Index_get_In, Index_get_set_eq|]. cbn [filename].
  destruct (apply_body_frame c b md) as (_ & _ & _ & ->). now rewrite Hname.
Qed.

Lemma rename_takes_name_witness :
  status (snd (post_create Pdf Sample.jan3 (Some (Sample.pdf "b.pdf"))
                 (fst (patch_edit Pdf Sample.jan2 "id-1" None (Sample.rename_to "b.pdf")
                         Sample.one_pdf)))) = 409%N.
Proof.
  apply (rename_takes_name Pdf Sample.jan2 Sample.jan3 "id-1" (Sample.rename_to "b.pdf")
           (Sample.pdf "b.pdf") Sample.one_pdf
           (Metadata "id-1" "a.pdf" "uploads/pdfs/a.pdf" 15
              "2024-01-01T00:00:00.000Z" "2024-01-01T00:00:00.000Z"));
    vm_compute; reflexivity.
Defined.
